(** * HTTPClient: the asynchronous HTTP/1.1 transport engine of the URL loader

    A shallow embedding of [src/http_client.h] (class template
    [URLLoaderImpl::HTTPClient<T>]) and the properties of its request
    builder, header parser, connection state machine and body delivery.

    Conventions of the embedding

    - [std::string] and the unconsumed contents of an [asio::streambuf] are
      lists of characters ([bytes]); [streambuf::consume n] drops a prefix.
    - [size_t] values are [N]; the lengths met here are lengths of buffers
      that exist, so no operation on them wraps.
    - [mx_status_t] is [Z], with the Magenta values of the constants used.
    - Every handler is a function on the whole [World]: the client object,
      the loader it reports to, the kernel objects it writes into and the
      pending asynchronous operation.
    - The replies of the kernel (socket and VMO system calls) are inputs of
      the model: a script, one entry per call, consumed in order.
    - A result is [Ok] with a value, [Undefined] where the C++ has no
      defined behaviour, or [Blocked] where the kernel script ends before
      the loop does. *)

From Stdlib Require Import String Ascii DecimalString.
From Stdlib Require Import List NArith ZArith Lia Bool Arith.
Import ListNotations.

(* ================================================================== *)
(** ** Bytes and text *)

Definition bytes := list ascii.

Definition str (s : string) : bytes := list_ascii_of_string s.

Definition CR : ascii := "013"%char.
Definition LF : ascii := "010"%char.
Definition SP : ascii := " "%char.
Definition COLON : ascii := ":"%char.
Definition CRLF : bytes := [CR; LF].

Fixpoint bytes_eqb (a b : bytes) : bool :=
  match a, b with
  | [], [] => true
  | x :: a', y :: b' => Ascii.eqb x y && bytes_eqb a' b'
  | _, _ => false
  end.

(** [std::to_string] and [operator<<] on an unsigned integer: decimal digits. *)
Definition to_string (n : N) : bytes :=
  str (NilEmpty.string_of_uint (N.to_uint n)).

(* ================================================================== *)
(** ** Results *)

Inductive result (A : Type) : Type :=
| Ok (a : A)
| Undefined
| Blocked.

Arguments Ok {A} a.
Arguments Undefined {A}.
Arguments Blocked {A}.

Definition bind {A B : Type} (m : result A) (k : A -> result B) : result B :=
  match m with
  | Ok a => k a
  | Undefined => Undefined
  | Blocked => Blocked
  end.

Notation "x <- m ;; k" := (bind m (fun x => k))
  (at level 61, m at next level, right associativity).

(* ================================================================== *)
(** ** Status codes

    The values of [magenta/errors.h] for the constants the client names. *)

Definition mx_status_t := Z.

Definition MX_OK : mx_status_t := 0%Z.
Definition MX_ERR_NO_MEMORY : mx_status_t := (-4)%Z.
Definition MX_ERR_INVALID_ARGS : mx_status_t := (-10)%Z.
Definition MX_ERR_SHOULD_WAIT : mx_status_t := (-22)%Z.
Definition MX_ERR_PEER_CLOSED : mx_status_t := (-24)%Z.

(** The error kinds of [apps/network/net_errors.h] that the client reports.
    The header is not part of the sources at hand; only the identity of the
    constants matters here, so they are an enumeration. *)
Inductive net_error : Type :=
| NETWORK_ERR_FAILED
| NETWORK_ERR_NAME_NOT_RESOLVED
| NETWORK_ERR_CONNECTION_FAILED
| NETWORK_ERR_SSL_HANDSHAKE_NOT_COMPLETED
| NETWORK_ERR_INVALID_RESPONSE.

(** [asio::error_code]: [!err] holds exactly for [ec_success]. *)
Inductive error_code : Type :=
| ec_success
| ec_eof
| ec_stream_truncated
| ec_other (value : Z).

Definition is_error (err : error_code) : bool :=
  match err with
  | ec_success => false
  | _ => true
  end.

Definition is_stream_truncated (err : error_code) : bool :=
  match err with
  | ec_stream_truncated => true
  | _ => false
  end.

(* ================================================================== *)
(** ** Method allow-list *)

Definition ALLOWED_METHODS : list bytes :=
  [str "GET"; str "HEAD"; str "POST"; str "PUT"; str "DELETE"; str "TRACE";
   str "CONNECT"; str "PATCH"].

Definition IsMethodAllowed (method : bytes) : bool :=
  existsb (bytes_eqb method) ALLOWED_METHODS.

(* ================================================================== *)
(** ** fxl::EqualsCaseInsensitiveASCII *)

Definition ToLowerASCII (c : ascii) : ascii :=
  let n := N_of_ascii c in
  if ((65 <=? n) && (n <=? 90))%N then ascii_of_N (n + 32) else c.

Fixpoint EqualsCaseInsensitiveASCII (v1 v2 : bytes) : bool :=
  match v1, v2 with
  | [], [] => true
  | x :: v1', y :: v2' =>
      Ascii.eqb (ToLowerASCII x) (ToLowerASCII y)
      && EqualsCaseInsensitiveASCII v1' v2'
  | _, _ => false
  end.

(* ================================================================== *)
(** ** Header-field parsing

    Iterators into [header] are offsets from [header.begin()]; the iterator
    [header.end()] is [length header].  An algorithm over the range
    [[first, last)] is defined only when [first <= last]. *)

(** Offset of the first character satisfying [p], or the length. *)
Fixpoint find_offset (p : ascii -> bool) (s : bytes) : nat :=
  match s with
  | [] => 0
  | c :: s' => if p c then 0 else S (find_offset p s')
  end.

(** [std::find_if(first, header.end(), p)]. *)
Definition std_find_if (header : bytes) (first : nat) (p : ascii -> bool)
  : result nat :=
  if first <=? length header
  then Ok (first + find_offset p (skipn first header))
  else Undefined.

(** [std::string(first, last)]. *)
Definition std_string (header : bytes) (first last : nat) : result bytes :=
  if first <=? last
  then Ok (firstn (last - first) (skipn first header))
  else Undefined.

Definition ParseHeaderField (header : bytes) : result (bytes * bytes) :=
  name_end <- std_find_if header 0 (Ascii.eqb COLON) ;;
  name <- std_string header 0 name_end ;;
  value_begin <-
    std_find_if header (name_end + 1) (fun c => negb (Ascii.eqb c SP)) ;;
  value_end <- std_find_if header (name_end + 1) (fun c => Ascii.eqb c CR) ;;
  value <- std_string header value_begin value_end ;;
  Ok (name, value).

(* ================================================================== *)
(** ** Input streams over a stream buffer

    [std::istream] on an [asio::streambuf]: the characters not yet
    consumed and the [eofbit] and [failbit] flags. *)

Record istream : Type := {
  is_data : bytes;
  is_eof : bool;
  is_fail : bool
}.

Definition istream_on (buf : bytes) : istream :=
  {| is_data := buf; is_eof := false; is_fail := false |}.

Definition good (s : istream) : bool := negb (is_eof s || is_fail s).

Definition isspace (c : ascii) : bool :=
  let n := N_of_ascii c in ((n =? 32) || ((9 <=? n) && (n <=? 13)))%N.

Definition isdigit (c : ascii) : bool :=
  let n := N_of_ascii c in ((48 <=? n) && (n <=? 57))%N.

Fixpoint skip_while (p : ascii -> bool) (s : bytes) : bytes :=
  match s with
  | [] => []
  | c :: s' => if p c then skip_while p s' else s
  end.

Fixpoint take_while (p : ascii -> bool) (s : bytes) : bytes :=
  match s with
  | [] => []
  | c :: s' => if p c then c :: take_while p s' else []
  end.

Definition is_nil {A : Type} (l : list A) : bool :=
  match l with
  | [] => true
  | _ :: _ => false
  end.

(** The sentry of a formatted input function: fails on a stream that is not
    good, otherwise skips white space and fails when that reaches the end. *)
Definition sentry_skipws (s : istream) : istream * bool :=
  if good s then
    let d := skip_while isspace (is_data s) in
    if is_nil d
    then ({| is_data := d; is_eof := true; is_fail := true |}, false)
    else ({| is_data := d; is_eof := false; is_fail := false |}, true)
  else ({| is_data := is_data s; is_eof := is_eof s; is_fail := true |}, false).

(** [is >> str] for a [std::string]: the target is untouched when the
    sentry fails. *)
Definition extract_string (s : istream) (old : bytes) : istream * bytes :=
  let (s1, ok) := sentry_skipws s in
  if ok then
    let tok := take_while (fun c => negb (isspace c)) (is_data s1) in
    let rest := skip_while (fun c => negb (isspace c)) (is_data s1) in
    ({| is_data := rest; is_eof := is_nil rest; is_fail := is_nil tok |}, tok)
  else (s1, old).

Definition digit_value (c : ascii) : N := (N_of_ascii c - 48)%N.

Definition decimal_value (ds : bytes) : N :=
  fold_left (fun acc c => (10 * acc + digit_value c)%N) ds 0%N.

Definition UINT_MAX : N := 4294967295%N.

(** [is >> n] for an [unsigned int] in base ten: an optional sign and
    decimal digits are accumulated, then converted.  No digit fails and
    stores 0; a magnitude above [UINT_MAX] fails and stores [UINT_MAX];
    after a minus sign the magnitude is negated in the 32 bits of the
    target, so that -5 reads as 4294967291.  The target is untouched when
    the sentry fails. *)
Definition extract_unsigned (s : istream) (old : N) : istream * N :=
  let (s1, ok) := sentry_skipws s in
  if ok then
    let d := is_data s1 in
    let sign :=
      match d with
      | c :: _ => if Ascii.eqb c "+" || Ascii.eqb c "-" then [c] else []
      | [] => []
      end in
    let d1 := skipn (length sign) d in
    let digits := take_while isdigit d1 in
    let rest := skip_while isdigit d1 in
    let eof := is_nil rest in
    if is_nil digits
    then ({| is_data := rest; is_eof := eof; is_fail := true |}, 0%N)
    else if (UINT_MAX <? decimal_value digits)%N
    then ({| is_data := rest; is_eof := eof; is_fail := true |}, UINT_MAX)
    else ({| is_data := rest; is_eof := eof; is_fail := false |},
          if bytes_eqb sign (str "-")
          then ((UINT_MAX + 1 - decimal_value digits) mod (UINT_MAX + 1))%N
          else decimal_value digits)
  else (s1, old).

(** The characters before the first line feed. *)
Definition line_of (s : bytes) : bytes :=
  take_while (fun c => negb (Ascii.eqb c LF)) s.

(** What follows the first line feed. *)
Definition after_line (s : bytes) : bytes :=
  tl (skip_while (fun c => negb (Ascii.eqb c LF)) s).

Definition ends_without_LF (s : bytes) : bool :=
  is_nil (skip_while (fun c => negb (Ascii.eqb c LF)) s).

(** [std::getline(is, line)]: the line feed is extracted and dropped; the
    call fails when the stream is not good or nothing can be extracted, and
    the target is untouched when the stream was not good. *)
Definition getline (s : istream) (old : bytes) : istream * bytes :=
  if good s then
    let d := is_data s in
    if is_nil d
    then ({| is_data := []; is_eof := true; is_fail := true |}, [])
    else ({| is_data := after_line d; is_eof := ends_without_LF d;
             is_fail := false |}, line_of d)
  else ({| is_data := is_data s; is_eof := is_eof s; is_fail := true |}, old).

(** [is.read(buffer, n)]: the characters read, at most [n], and the rest. *)
Definition stream_read (data : bytes) (n : N) : bytes * bytes :=
  (firstn (N.to_nat n) data, skipn (N.to_nat n) data).

(* ================================================================== *)
(** ** Responses and kernel objects *)

(** A byte of a transfer buffer: a character read from the stream, or the
    indeterminate content of storage that was never written. *)
Definition cell := option ascii.

Definition known (b : bytes) : list cell := map Some b.

(** [sizeof(TransferBuffer)] *)
Definition TransferBuffer_size : N := (64 * 1024)%N.

Arguments TransferBuffer_size : simpl never.

(** The transfer buffer after reading [got] into it for a request of
    [todo] characters. *)
Definition TransferBuffer (got : bytes) (todo : N) : list cell :=
  known got ++ repeat None (N.to_nat todo - length got).

Record vmo : Type := {
  vmo_size : N;
  vmo_contents : list cell
}.

Inductive URLBody : Type :=
| body_unset
| body_buffer (v : vmo)
| body_stream.

Record URLResponse : Type := {
  status_code : N;
  status_line : bytes;
  url : bytes;
  headers : list (bytes * bytes);
  body : URLBody
}.

Definition set_body (b : URLBody) (r : URLResponse) : URLResponse :=
  {| status_code := status_code r; status_line := status_line r;
     url := url r; headers := headers r; body := b |}.

(** The calls the client makes on its loader. *)
Inductive loader_call : Type :=
| SendResponse (response : option URLResponse)
| SendError (error_code : net_error).

Record URLLoaderImpl : Type := {
  buffer_response_ : bool;
  current_url_ : bytes;
  loader_calls : list loader_call
}.

(** The reply of the kernel to one write: the status, the number of bytes
    it has room for (the bytes written are the smaller of that and the
    request) and, for a socket write answered [MX_ERR_SHOULD_WAIT], the
    status of the [wait_one] that follows. *)
Record sys_reply : Type := {
  reply_status : mx_status_t;
  reply_room : N;
  reply_wait : mx_status_t
}.

Definition write_ok (room : N) : sys_reply :=
  {| reply_status := MX_OK; reply_room := room; reply_wait := MX_OK |}.

Definition write_should_wait (wait : mx_status_t) : sys_reply :=
  {| reply_status := MX_ERR_SHOULD_WAIT; reply_room := 0; reply_wait := wait |}.

Definition write_error (status : mx_status_t) : sys_reply :=
  {| reply_status := status; reply_room := 0; reply_wait := MX_OK |}.

Record Kernel : Type := {
  socket_create_status : mx_status_t;
  stream_replies : list sys_reply;
  stream_received : list cell;
  vmo_create_status : mx_status_t;
  vmo_replies : list sys_reply
}.

(* ================================================================== *)
(** ** The client object and its world *)

Record HTTPClient : Type := {
  status_code_ : N;
  redirect_location_ : bytes;
  request_bufs_ : list bytes;
  request_header_buf_ : bytes;
  request_body_buf_ : bytes;
  response_buf_ : bytes;
  http_version_ : bytes;
  status_message_ : bytes;
  response_ : option URLResponse;
  (** whether the producer end of the body stream is held *)
  response_body_stream_ : bool
}.

(** A client as its constructor leaves it; [status_code_] has no
    initialiser, [junk] is the value it happens to hold. *)
Definition HTTPClient_new (junk : N) : HTTPClient :=
  {| status_code_ := junk; redirect_location_ := [];
     request_bufs_ := []; request_header_buf_ := [];
     request_body_buf_ := []; response_buf_ := [];
     http_version_ := []; status_message_ := [];
     response_ := None; response_body_stream_ := false |}.

Definition set_request (hdr body : bytes) (bufs : list bytes)
  (c : HTTPClient) : HTTPClient :=
  {| status_code_ := status_code_ c;
     redirect_location_ := redirect_location_ c;
     request_bufs_ := bufs; request_header_buf_ := hdr;
     request_body_buf_ := body; response_buf_ := response_buf_ c;
     http_version_ := http_version_ c;
     status_message_ := status_message_ c;
     response_ := response_ c;
     response_body_stream_ := response_body_stream_ c |}.

Definition set_response_buf_ (buf : bytes) (c : HTTPClient) : HTTPClient :=
  {| status_code_ := status_code_ c;
     redirect_location_ := redirect_location_ c;
     request_bufs_ := request_bufs_ c;
     request_header_buf_ := request_header_buf_ c;
     request_body_buf_ := request_body_buf_ c; response_buf_ := buf;
     http_version_ := http_version_ c;
     status_message_ := status_message_ c;
     response_ := response_ c;
     response_body_stream_ := response_body_stream_ c |}.

Definition set_status (version : bytes) (code : N) (message : bytes)
  (c : HTTPClient) : HTTPClient :=
  {| status_code_ := code;
     redirect_location_ := redirect_location_ c;
     request_bufs_ := request_bufs_ c;
     request_header_buf_ := request_header_buf_ c;
     request_body_buf_ := request_body_buf_ c;
     response_buf_ := response_buf_ c;
     http_version_ := version; status_message_ := message;
     response_ := response_ c;
     response_body_stream_ := response_body_stream_ c |}.

Definition set_redirect_location_ (loc : bytes) (c : HTTPClient)
  : HTTPClient :=
  {| status_code_ := status_code_ c; redirect_location_ := loc;
     request_bufs_ := request_bufs_ c;
     request_header_buf_ := request_header_buf_ c;
     request_body_buf_ := request_body_buf_ c;
     response_buf_ := response_buf_ c;
     http_version_ := http_version_ c;
     status_message_ := status_message_ c;
     response_ := response_ c;
     response_body_stream_ := response_body_stream_ c |}.

Definition set_response_ (r : option URLResponse) (c : HTTPClient)
  : HTTPClient :=
  {| status_code_ := status_code_ c;
     redirect_location_ := redirect_location_ c;
     request_bufs_ := request_bufs_ c;
     request_header_buf_ := request_header_buf_ c;
     request_body_buf_ := request_body_buf_ c;
     response_buf_ := response_buf_ c;
     http_version_ := http_version_ c;
     status_message_ := status_message_ c;
     response_ := r;
     response_body_stream_ := response_body_stream_ c |}.

Definition set_response_body_stream_ (held : bool) (c : HTTPClient)
  : HTTPClient :=
  {| status_code_ := status_code_ c;
     redirect_location_ := redirect_location_ c;
     request_bufs_ := request_bufs_ c;
     request_header_buf_ := request_header_buf_ c;
     request_body_buf_ := request_body_buf_ c;
     response_buf_ := response_buf_ c;
     http_version_ := http_version_ c;
     status_message_ := status_message_ c;
     response_ := response_ c;
     response_body_stream_ := held |}.

(** The socket type [T] of the template. *)
Inductive socket_flavor : Type := ssl_socket_t | nonssl_socket_t.

(** The handler bound to the asynchronous operation in flight. *)
Inductive continuation : Type :=
| K_OnResolve
| K_OnConnect
| K_OnHandShake
| K_OnWriteRequest
| K_OnReadStatusLine
| K_OnReadHeaders
| K_OnBufferBody
| K_OnStreamBody.

Record World : Type := {
  flavor : socket_flavor;
  client : HTTPClient;
  loader_ : URLLoaderImpl;
  kernel : Kernel;
  (** the operation in flight, if any *)
  pending : option continuation;
  (** the request bytes the socket has taken *)
  wire_sent : bytes
}.

Definition set_client (c : HTTPClient) (w : World) : World :=
  {| flavor := flavor w; client := c; loader_ := loader_ w;
     kernel := kernel w; pending := pending w; wire_sent := wire_sent w |}.

Definition set_kernel (k : Kernel) (w : World) : World :=
  {| flavor := flavor w; client := client w; loader_ := loader_ w;
     kernel := k; pending := pending w; wire_sent := wire_sent w |}.

Definition set_pending (p : option continuation) (w : World) : World :=
  {| flavor := flavor w; client := client w; loader_ := loader_ w;
     kernel := kernel w; pending := p; wire_sent := wire_sent w |}.

Definition set_wire_sent (b : bytes) (w : World) : World :=
  {| flavor := flavor w; client := client w; loader_ := loader_ w;
     kernel := kernel w; pending := pending w; wire_sent := b |}.

Definition call_loader (call : loader_call) (w : World) : World :=
  {| flavor := flavor w; client := client w;
     loader_ :=
       {| buffer_response_ := buffer_response_ (loader_ w);
          current_url_ := current_url_ (loader_ w);
          loader_calls := loader_calls (loader_ w) ++ [call] |};
     kernel := kernel w; pending := pending w; wire_sent := wire_sent w |}.

Definition set_stream (replies : list sys_reply) (received : list cell)
  (k : Kernel) : Kernel :=
  {| socket_create_status := socket_create_status k;
     stream_replies := replies; stream_received := received;
     vmo_create_status := vmo_create_status k;
     vmo_replies := vmo_replies k |}.

Definition set_vmo_replies (replies : list sys_reply) (k : Kernel) : Kernel :=
  {| socket_create_status := socket_create_status k;
     stream_replies := stream_replies k;
     stream_received := stream_received k;
     vmo_create_status := vmo_create_status k;
     vmo_replies := replies |}.

Definition size (buf : bytes) : N := N.of_nat (length buf).

(** [asio::streambuf::consume] *)
Definition consume (n : N) (buf : bytes) : bytes := skipn (N.to_nat n) buf.

(* ================================================================== *)
(** ** Request builder *)

(** An upload element reader, by what [ReadAll] does: the characters it
    puts on the stream and the status it returns. *)
Record UploadElementReader : Type := {
  read_data : bytes;
  read_status : mx_status_t
}.

(** The loop over the extra headers: one line each, and whether a name
    equal to "accept" was met. *)
Fixpoint write_extra_headers (extra_headers : list (bytes * bytes))
  (stream : bytes) (has_accept : bool) : bytes * bool :=
  match extra_headers with
  | [] => (stream, has_accept)
  | (first, second) :: rest =>
      write_extra_headers rest
        (stream ++ first ++ str ": " ++ second ++ CRLF)
        (has_accept || EqualsCaseInsensitiveASCII first (str "accept"))
  end.

(** The loop over the element readers; stops at the first failure. *)
Fixpoint read_elements (element_readers : list UploadElementReader)
  (stream : bytes) : bytes * mx_status_t :=
  match element_readers with
  | [] => (stream, MX_OK)
  | r :: rest =>
      if (read_status r =? MX_OK)%Z
      then read_elements rest (stream ++ read_data r)
      else (stream ++ read_data r, read_status r)
  end.

(** [extra_headers] is the [std::map] in the order its iterator visits. *)
Definition CreateRequest (c : HTTPClient) (server path method : bytes)
  (extra_headers : list (bytes * bytes))
  (element_readers : list UploadElementReader) : mx_status_t * HTTPClient :=
  if negb (IsMethodAllowed method) then (MX_ERR_INVALID_ARGS, c)
  else
    let h := request_header_buf_ c
             ++ method ++ str " " ++ path ++ str " HTTP/1.1" ++ CRLF in
    let h := h ++ str "Host: " ++ server ++ CRLF in
    let h := h ++ str "Connection: close" ++ CRLF in
    let (h, has_accept) := write_extra_headers extra_headers h false in
    let h := if has_accept then h else h ++ str "Accept: */*" ++ CRLF in
    let (b, result) := read_elements element_readers (request_body_buf_ c) in
    if negb (result =? MX_OK)%Z
    then (result, set_request h b (request_bufs_ c) c)
    else
      let content_length := size b in
      let h := if (0 <? content_length)%N
               then h ++ str "Content-Length: " ++ to_string content_length
                      ++ CRLF
               else h in
      let h := h ++ CRLF in
      (MX_OK, set_request h b (request_bufs_ c ++ [h; b]) c).

(* ================================================================== *)
(** ** Connection state machine: resolve, connect, handshake, write *)

Definition Start (w : World) : World := set_pending (Some K_OnResolve) w.

Definition fail_with (code : net_error) (w : World) : World :=
  set_pending None (call_loader (SendError code) w).

(** Both specialisations of [OnResolve] start the connect. *)
Definition OnResolve (w : World) (err : error_code) : World :=
  if negb (is_error err) then set_pending (Some K_OnConnect) w
  else fail_with NETWORK_ERR_NAME_NOT_RESOLVED w.

Definition OnConnect (w : World) (err : error_code) : World :=
  match flavor w with
  | ssl_socket_t =>
      if negb (is_error err) then set_pending (Some K_OnHandShake) w
      else fail_with NETWORK_ERR_CONNECTION_FAILED w
  | nonssl_socket_t =>
      if negb (is_error err) then set_pending (Some K_OnWriteRequest) w
      else fail_with NETWORK_ERR_CONNECTION_FAILED w
  end.

Definition OnHandShake (w : World) (err : error_code) : World :=
  if negb (is_error err) then set_pending (Some K_OnWriteRequest) w
  else fail_with NETWORK_ERR_SSL_HANDSHAKE_NOT_COMPLETED w.

Definition OnWriteRequest (w : World) (err : error_code) (transferred : N)
  : World :=
  if negb (is_error err) then
    let c := client w in
    let transferred_from_header :=
      N.min (size (request_header_buf_ c)) transferred in
    let h := consume transferred_from_header (request_header_buf_ c) in
    let b := if (transferred_from_header <? transferred)%N
             then consume (transferred - transferred_from_header)
                    (request_body_buf_ c)
             else request_body_buf_ c in
    let bufs := (if (0 <? size h)%N then [h] else [])
                ++ (if (0 <? size b)%N then [b] else []) in
    let w' := set_client (set_request h b bufs c) w in
    if negb (is_nil bufs) then set_pending (Some K_OnWriteRequest) w'
    else set_pending (Some K_OnReadStatusLine) w'
  else fail_with NETWORK_ERR_FAILED w.

(* ================================================================== *)
(** ** Status line *)

Definition OnReadStatusLine (w : World) (err : error_code) : World :=
  if negb (is_error err) then
    let c := client w in
    let (s1, version) :=
      extract_string (istream_on (response_buf_ c)) (http_version_ c) in
    let (s2, code) := extract_unsigned s1 (status_code_ c) in
    let (s3, message) := getline s2 (status_message_ c) in
    let w' := set_client
                (set_response_buf_ (is_data s3)
                   (set_status version code message c)) w in
    if is_fail s3 || negb (bytes_eqb (firstn 5 version) (str "HTTP/"))
    then fail_with NETWORK_ERR_INVALID_RESPONSE w'
    else set_pending (Some K_OnReadHeaders) w'
  else set_pending None w.

(* ================================================================== *)
(** ** Body delivery *)

(** The [do ... while (done < size)] loop of [SendStreamedBody], one
    iteration per kernel reply.  Yields the status returned (the loop left
    by its condition returns [MX_OK]), what is left of the stream, what the
    body stream has received and the replies not used. *)
Fixpoint stream_body_loop (replies : list sys_reply) (sz done : N)
  (stream : bytes) (received : list cell)
  : result (mx_status_t * bytes * list cell * list sys_reply) :=
  match replies with
  | [] => Blocked
  | r :: replies' =>
      let todo := N.min TransferBuffer_size (sz - done) in
      let (got, stream') := stream_read stream todo in
      let buffer := TransferBuffer got todo in
      if (reply_status r =? MX_ERR_SHOULD_WAIT)%Z then
        if (reply_wait r =? MX_OK)%Z then
          (* continue: retry now that the socket is ready *)
          if (done <? sz)%N
          then stream_body_loop replies' sz done stream' received
          else Ok (MX_OK, stream', received, replies')
        else Ok (reply_wait r, stream', received, replies')
      else if negb (reply_status r =? MX_OK)%Z then
        Ok (reply_status r, stream', received, replies')
      else
        let written := N.min todo (reply_room r) in
        let received' := received ++ firstn (N.to_nat written) buffer in
        let done' := (done + written)%N in
        if (done' <? sz)%N
        then stream_body_loop replies' sz done' stream' received'
        else Ok (MX_OK, stream', received', replies')
  end.

Definition SendStreamedBody (w : World) : result (mx_status_t * World) :=
  let sz := size (response_buf_ (client w)) in
  if (0 <? sz)%N then
    out <- stream_body_loop (stream_replies (kernel w)) sz 0
             (response_buf_ (client w)) (stream_received (kernel w)) ;;
    let '(result, stream, received, replies) := out in
    Ok (result,
        set_kernel (set_stream replies received (kernel w))
          (set_client (set_response_buf_ stream (client w)) w))
  else Ok (MX_OK, w).

(** [vmo.write(data, offset, ...)] on the contents. *)
Definition vmo_write (contents : list cell) (offset : N) (data : list cell)
  : list cell :=
  firstn (N.to_nat offset) contents ++ data
  ++ skipn (N.to_nat offset + length data) contents.

Definition vmo_create (sz : N) : vmo :=
  {| vmo_size := sz; vmo_contents := repeat (Some zero) (N.to_nat sz) |}.

(** The copy loop of [SendBufferedBody]. *)
Fixpoint buffer_body_loop (replies : list sys_reply) (sz done : N)
  (stream : bytes) (contents : list cell)
  : result (mx_status_t * bytes * list cell * list sys_reply) :=
  match replies with
  | [] => Blocked
  | r :: replies' =>
      let todo := N.min TransferBuffer_size (sz - done) in
      let (got, stream') := stream_read stream todo in
      let buffer := TransferBuffer got todo in
      if negb (reply_status r =? MX_OK)%Z then
        Ok (reply_status r, stream', contents, replies')
      else
        let written := N.min todo (reply_room r) in
        let contents' :=
          vmo_write contents done (firstn (N.to_nat written) buffer) in
        let done' := (done + written)%N in
        if (done' <? sz)%N
        then buffer_body_loop replies' sz done' stream' contents'
        else Ok (MX_OK, stream', contents', replies')
  end.

Definition SendBufferedBody (w : World) : result (mx_status_t * World) :=
  let sz := size (response_buf_ (client w)) in
  if (0 <? sz)%N then
    if negb (vmo_create_status (kernel w) =? MX_OK)%Z
    then Ok (vmo_create_status (kernel w), w)
    else
      out <- buffer_body_loop (vmo_replies (kernel w)) sz 0
               (response_buf_ (client w)) (vmo_contents (vmo_create sz)) ;;
      let '(result, stream, contents, replies) := out in
      let w' := set_kernel (set_vmo_replies replies (kernel w))
                  (set_client (set_response_buf_ stream (client w)) w) in
      if negb (result =? MX_OK)%Z then Ok (result, w')
      else
        match response_ (client w) with
        | None => Undefined
        | Some r =>
            let v := {| vmo_size := sz; vmo_contents := contents |} in
            Ok (MX_OK,
                set_client
                  (set_response_ (Some (set_body (body_buffer v) r))
                     (client w')) w')
        end
  else Ok (MX_OK, w).

(* ================================================================== *)
(** ** Headers *)

(** The loop [while (std::getline(response_stream, header) && header != "\r")]
    with [ParseHeaderField] at the head of its body; [body] is the rest
    of the loop body.  One successful [getline] takes at least one character
    off the stream, so [fuel] above the length of the stream is never used
    up (lemma [headers_loop_fuel]). *)
Fixpoint headers_loop {A : Type} (body : bytes -> bytes -> A -> A)
  (fuel : nat) (s : istream) (acc : A) : result (istream * A) :=
  match fuel with
  | O => Ok (s, acc)
  | S fuel' =>
      let (s1, header) := getline s [] in
      if is_fail s1 || bytes_eqb header [CR] then Ok (s1, acc)
      else
        nv <- ParseHeaderField header ;;
        headers_loop body fuel' s1 (body (fst nv) (snd nv) acc)
  end.

Definition redirect_body (name value : bytes) (redirect_location : bytes)
  : bytes :=
  if bytes_eqb name (str "Location") then value else redirect_location.

Definition response_body (name value : bytes)
  (headers : list (bytes * bytes)) : list (bytes * bytes) :=
  headers ++ [(name, value)].

Definition is_redirect (code : N) : bool := ((code =? 301) || (code =? 302))%N.

Definition OnReadHeaders (w : World) (err : error_code) : result World :=
  if negb (is_error err) then
    let c := client w in
    let s := istream_on (response_buf_ c) in
    let fuel := S (length (response_buf_ c)) in
    if is_redirect (status_code_ c) then
      out <- headers_loop redirect_body fuel s [] ;;
      Ok (set_pending None
            (set_client
               (set_redirect_location_ (snd out)
                  (set_response_buf_ (is_data (fst out)) c)) w))
    else
      out <- headers_loop response_body fuel s [] ;;
      let response :=
        {| status_code := status_code_ c;
           status_line := http_version_ c ++ str " "
                          ++ to_string (status_code_ c)
                          ++ status_message_ c;
           url := current_url_ (loader_ w);
           headers := snd out;
           body := body_unset |} in
      let c1 := set_response_buf_ (is_data (fst out)) c in
      if buffer_response_ (loader_ w) then
        Ok (set_pending (Some K_OnBufferBody)
              (set_client (set_response_ (Some response) c1) w))
      else if negb (socket_create_status (kernel w) =? MX_OK)%Z then
        Ok (set_pending None (set_client c1 w))
      else
        let w1 := call_loader (SendResponse (Some (set_body body_stream response)))
                    (set_client (set_response_body_stream_ true c1) w) in
        sent <- SendStreamedBody w1 ;;
        if negb (fst sent =? MX_OK)%Z
        then Ok (set_pending None
                   (set_client
                      (set_response_body_stream_ false (client (snd sent)))
                      (snd sent)))
        else Ok (set_pending (Some K_OnStreamBody) (snd sent))
  else Ok (set_pending None w).

Definition OnBufferBody (w : World) (err : error_code) : result World :=
  if is_error err && negb (is_stream_truncated err)
  then Ok (fail_with NETWORK_ERR_FAILED w)
  else
    sent <- SendBufferedBody w ;;
    let w1 := snd sent in
    Ok (set_pending None
          (call_loader (SendResponse (response_ (client w1)))
             (set_client (set_response_ None (client w1)) w1))).

Definition OnStreamBody (w : World) (err : error_code) : result World :=
  let release w' :=
    set_pending None
      (set_client (set_response_body_stream_ false (client w')) w') in
  if negb (is_error err) then
    sent <- SendStreamedBody w ;;
    if (fst sent =? MX_OK)%Z
    then Ok (set_pending (Some K_OnStreamBody) (snd sent))
    else Ok (release (snd sent))
  else Ok (release w).

(* ================================================================== *)
(** ** Completions of asynchronous operations *)

Inductive completion : Type :=
| Resolved (err : error_code)
| Connected (err : error_code)
| HandShaken (err : error_code)
(** [async_write]: the socket took the first [transferred] bytes offered *)
| Written (err : error_code) (transferred : N)
(** a read: [data] was appended to [response_buf_] *)
| ReadDone (err : error_code) (data : bytes).

Definition socket_took (transferred : N) (w : World) : World :=
  set_wire_sent
    (wire_sent w
     ++ firstn (N.to_nat transferred) (concat (request_bufs_ (client w)))) w.

Definition socket_gave (data : bytes) (w : World) : World :=
  set_client (set_response_buf_ (response_buf_ (client w) ++ data) (client w))
    w.

(** The handler bound to the operation in flight runs on its completion;
    a completion nothing waits for changes nothing. *)
Definition step (w : World) (ev : completion) : result World :=
  match pending w, ev with
  | Some K_OnResolve, Resolved err => Ok (OnResolve w err)
  | Some K_OnConnect, Connected err => Ok (OnConnect w err)
  | Some K_OnHandShake, HandShaken err => Ok (OnHandShake w err)
  | Some K_OnWriteRequest, Written err n =>
      Ok (OnWriteRequest (socket_took n w) err n)
  | Some K_OnReadStatusLine, ReadDone err data =>
      Ok (OnReadStatusLine (socket_gave data w) err)
  | Some K_OnReadHeaders, ReadDone err data =>
      OnReadHeaders (socket_gave data w) err
  | Some K_OnBufferBody, ReadDone err data =>
      OnBufferBody (socket_gave data w) err
  | Some K_OnStreamBody, ReadDone err data =>
      OnStreamBody (socket_gave data w) err
  | _, _ => Ok w
  end.

Fixpoint run (w : World) (evs : list completion) : result World :=
  match evs with
  | [] => Ok w
  | ev :: evs' => w' <- step w ev ;; run w' evs'
  end.

(* ================================================================== *)
(** ** Notions the properties are stated with *)

(** The name and the value of a header line as the parsing rule describes
    them: the name is what precedes the first colon; the value is what
    follows it, without its leading spaces, up to the first carriage
    return. *)
Definition field_name (line : bytes) : bytes :=
  take_while (fun c => negb (Ascii.eqb COLON c)) line.

Definition field_value (line : bytes) : bytes :=
  take_while (fun c => negb (Ascii.eqb c CR))
    (skip_while (fun c => Ascii.eqb c SP)
       (tl (skip_while (fun c => negb (Ascii.eqb COLON c)) line))).

Definition has_colon (line : bytes) : bool := existsb (Ascii.eqb COLON) line.

(** The lines of a text, a line feed ending each but possibly the last. *)
Fixpoint split_lines (s : bytes) : list bytes :=
  match s with
  | [] => []
  | c :: s' =>
      if Ascii.eqb c LF then [] :: split_lines s'
      else match split_lines s' with
           | [] => [[c]]
           | l :: ls => (c :: l) :: ls
           end
  end.

Fixpoint before_blank (ls : list bytes) : list bytes :=
  match ls with
  | [] => []
  | l :: ls' => if bytes_eqb l [CR] then [] else l :: before_blank ls'
  end.

(** The header block at the front of a buffer: its lines up to the first
    line that is a lone carriage return. *)
Definition header_block (buf : bytes) : list bytes :=
  before_blank (split_lines buf).

Definition is_Location (line : bytes) : bool :=
  bytes_eqb (field_name line) (str "Location").

(** The value of the last header of the block named [Location]; empty when
    there is none. *)
Definition last_Location (block : list bytes) : bytes :=
  last (map field_value (filter is_Location block)) [].

(** The line of one extra header, without its line feed. *)
Definition header_line (kv : bytes * bytes) : bytes :=
  fst kv ++ str ": " ++ snd kv ++ [CR].

Definition has_accept_key (extra_headers : list (bytes * bytes)) : bool :=
  existsb (fun kv => EqualsCaseInsensitiveASCII (fst kv) (str "accept"))
    extra_headers.

Definition accept_line : bytes := str "Accept: */*" ++ [CR].

Definition bytes_eq_dec : forall a b : bytes, {a = b} + {a <> b} :=
  list_eq_dec ascii_dec.

Definition sum_N (ts : list N) : N := fold_right N.add 0%N ts.

(** The kernel takes a write in full. *)
Definition roomy (r : sys_reply) : bool :=
  (reply_status r =? MX_OK)%Z && (TransferBuffer_size <=? reply_room r)%N.

(** The kernel creates the VMO and takes in full every write that a body
    of [n] bytes needs. *)
Definition vmo_ready (k : Kernel) (n : N) : bool :=
  (vmo_create_status k =? MX_OK)%Z
  && forallb roomy (vmo_replies k)
  && (n <=? TransferBuffer_size * N.of_nat (length (vmo_replies k)))%N.

(** The response [r] with the bytes [buf] as its body: a VMO of that size
    holding them, or no buffer at all for an empty body. *)
Definition buffered_response (r : URLResponse) (buf : bytes) : URLResponse :=
  if is_nil buf then r
  else set_body
         (body_buffer {| vmo_size := size buf; vmo_contents := known buf |}) r.

Definition count_calls (w : World) : nat := length (loader_calls (loader_ w)).

(* ================================================================== *)
(** ** Sample inputs *)

Definition sample_loader (buffered : bool) : URLLoaderImpl :=
  {| buffer_response_ := buffered;
     current_url_ := str "http://example.com/index.html";
     loader_calls := [] |}.

Definition sample_kernel (vmo_status : mx_status_t)
  (stream vmo_rs : list sys_reply) : Kernel :=
  {| socket_create_status := MX_OK; stream_replies := stream;
     stream_received := []; vmo_create_status := vmo_status;
     vmo_replies := vmo_rs |}.

Definition sample_client : HTTPClient :=
  snd (CreateRequest (HTTPClient_new 0) (str "example.com")
         (str "/index.html") (str "GET") [] []).

Definition sample_world (fl : socket_flavor) (buffered : bool) (k : Kernel)
  : World :=
  {| flavor := fl; client := sample_client; loader_ := sample_loader buffered;
     kernel := k; pending := None; wire_sent := [] |}.

(** A world whose client holds [buf] in its response buffer. *)
Definition world_with_response (code : N) (buf : bytes) (k : Kernel) : World :=
  set_client
    (set_response_buf_ buf
       (set_status (str "HTTP/1.1") code (str " Found" ++ [CR]) sample_client))
    (sample_world nonssl_socket_t false k).

(** A 302 response with two [Location] headers. *)
Definition sample_redirect : World :=
  world_with_response 302
    (str "Location: http://example.com/old" ++ CRLF
     ++ str "Location: http://example.com/new" ++ CRLF ++ CRLF)
    (sample_kernel MX_OK [] []).

(** A 302 response with a line that holds no colon before its [Location]
    header. *)
Definition sample_redirect_malformed : World :=
  world_with_response 302
    (str "X-Powered-By PHP" ++ CRLF
     ++ str "Location: http://example.com/new" ++ CRLF ++ CRLF)
    (sample_kernel MX_OK [] []).

Definition well_formed_block (block : list bytes) : bool :=
  forallb has_colon block.

(** The lines of a serialized request, each without its line feed. *)
Definition request_line (method path : bytes) : bytes :=
  method ++ str " " ++ path ++ str " HTTP/1.1" ++ [CR].

Definition host_line (server : bytes) : bytes :=
  str "Host: " ++ server ++ [CR].

Definition connection_line : bytes := str "Connection: close" ++ [CR].

Definition content_length_lines (body : bytes) : list bytes :=
  if (0 <? size body)%N
  then [str "Content-Length: " ++ to_string (size body) ++ [CR]]
  else [].

(** Lines put end to end, a line feed after each. *)
Definition unlines (ls : list bytes) : bytes :=
  concat (map (fun l => l ++ [LF]) ls).

Definition free_of_LF (s : bytes) : bool := negb (existsb (Ascii.eqb LF) s).

(** The world [w] with [buf] as the content of its response buffer. *)
Definition with_response_buf (buf : bytes) (w : World) : World :=
  set_client (set_response_buf_ buf (client w)) w.

(** A 301 response with one [Location] header and the same name in upper
    case after it. *)
Definition sample_redirect_exact : World :=
  world_with_response 301
    (unlines [str "Location: http://example.com/a" ++ [CR]]
     ++ str "LOCATION: http://example.com/c" ++ CRLF ++ CRLF)
    (sample_kernel MX_OK [] []).

Definition headers_free_of_LF (extra_headers : list (bytes * bytes)) : bool :=
  forallb (fun kv => free_of_LF (fst kv) && free_of_LF (snd kv)) extra_headers.

Definition readers_succeed (element_readers : list UploadElementReader)
  : bool :=
  forallb (fun r => (read_status r =? MX_OK)%Z) element_readers.

Definition sample_headers : list (bytes * bytes) :=
  [(str "User-Agent", str "loader/1.0"); (str "X-Trace", str "on")].

Definition sample_headers_with_accept : list (bytes * bytes) :=
  [(str "ACCEPT", str "text/html"); (str "User-Agent", str "loader/1.0")].

Definition sample_reader : UploadElementReader :=
  {| read_data := str "hello"; read_status := MX_OK |}.

(** The buffers [OnWriteRequest] offers again: those that are not empty. *)
Definition nonempty_bufs (h b : bytes) : list bytes :=
  (if is_nil h then [] else [h]) ++ (if is_nil b then [] else [b]).

(** The state [OnWriteRequest] leaves on success: the buffers with bytes
    left are offered again, and the write goes on while there is one. *)
Definition written_state (w : World) : Prop :=
  request_bufs_ (client w)
  = nonempty_bufs (request_header_buf_ (client w))
      (request_body_buf_ (client w))
  /\ pending w
     = Some (if is_nil (request_bufs_ (client w)) then K_OnReadStatusLine
             else K_OnWriteRequest).

Definition write_completions (ts : list N) : list completion :=
  map (Written ec_success) ts.

(** A POST with a five-byte body, its write in flight. *)
Definition sample_writing : World :=
  set_pending (Some K_OnWriteRequest)
    (set_client
       (snd (CreateRequest (HTTPClient_new 0) (str "example.com")
               (str "/upload") (str "POST") [] [sample_reader]))
       (sample_world nonssl_socket_t false (sample_kernel MX_OK [] []))).

(** A buffered response, headers read, the read of the body in flight. *)
Definition sample_buffering (buf : bytes) (k : Kernel) : World :=
  set_pending (Some K_OnBufferBody)
    (set_client
       (set_response_
          (Some {| status_code := 200;
                   status_line := str "HTTP/1.1 200 OK" ++ [CR];
                   url := str "http://example.com/index.html";
                   headers := [(str "Content-Length", str "5")];
                   body := body_unset |})
          (set_response_buf_ buf
             (set_status (str "HTTP/1.1") 200 (str " OK" ++ [CR])
                sample_client)))
       (sample_world ssl_socket_t true k)).

(** A streamed response, headers delivered, [buf] waiting in the response
    buffer and the body stream answering with [replies]. *)
Definition sample_streaming (buf : bytes) (replies : list sys_reply) : World :=
  set_pending (Some K_OnStreamBody)
    (set_client
       (set_response_body_stream_ true
          (set_response_buf_ buf
             (set_status (str "HTTP/1.1") 200 (str " OK" ++ [CR])
                sample_client)))
       (sample_world nonssl_socket_t false (sample_kernel MX_OK replies []))).

(** One full transfer buffer of the letter a, then xyz. *)
Definition two_chunk_body : bytes :=
  repeat "a"%char (N.to_nat TransferBuffer_size) ++ str "xyz".

(** The status returned and what the body stream has received. *)
Definition delivered_to_stream (r : result (mx_status_t * World))
  : option (mx_status_t * list cell) :=
  match r with
  | Ok (status, w) => Some (status, stream_received (kernel w))
  | _ => None
  end.

(** What a run leaves: the calls on the loader and the operation in
    flight. *)
Definition outcome (r : result World)
  : option (list loader_call * option continuation) :=
  match r with
  | Ok w => Some (loader_calls (loader_ w), pending w)
  | _ => None
  end.

(** The server closes the connection before it sends a status line. *)
Definition closed_before_status_line : list completion :=
  [Resolved ec_success; Connected ec_success;
   Written ec_success (size (request_header_buf_ sample_client));
   ReadDone ec_eof []].

(** The connection fails between the status line and the headers. *)
Definition reset_before_headers : list completion :=
  [Resolved ec_success; Connected ec_success;
   Written ec_success (size (request_header_buf_ sample_client));
   ReadDone ec_success (str "HTTP/1.1 200 OK" ++ CRLF);
   ReadDone (ec_other 104) []].

(** A TLS exchange in buffered mode whose peer closes without a
    close-notify after the body. *)
Definition truncated_tls_exchange : list completion :=
  [Resolved ec_success; Connected ec_success; HandShaken ec_success;
   Written ec_success (size (request_header_buf_ sample_client));
   ReadDone ec_success (str "HTTP/1.1 200 OK" ++ CRLF);
   ReadDone ec_success (str "Content-Length: 5" ++ CRLF ++ CRLF ++ str "hel");
   ReadDone ec_stream_truncated (str "lo")].

Definition sample_response (b : URLBody) : URLResponse :=
  {| status_code := 200;
     status_line := str "HTTP/1.1 200 OK" ++ [CR];
     url := str "http://example.com/index.html";
     headers := [(str "Content-Length", str "5")];
     body := b |}.

(** The loop body run over a header block, line by line. *)
Definition fold_headers {A : Type} (body : bytes -> bytes -> A -> A)
  (block : list bytes) (acc : A) : A :=
  fold_left (fun a l => body (field_name l) (field_value l) a) block acc.

(** At most one call has been made on the loader, and after a call nothing
    is in flight but the streaming of the body. *)
Definition calls_bounded (w : World) : Prop :=
  count_calls w = 0
  \/ (count_calls w = 1
      /\ (pending w = None \/ pending w = Some K_OnStreamBody)).

(** The body stream takes in full every write that [n] bytes need. *)
Definition stream_ready (k : Kernel) (n : N) : bool :=
  forallb roomy (stream_replies k)
  && (n <=? TransferBuffer_size * N.of_nat (length (stream_replies k)))%N.

(** A redirect and a streamed response, from the resolve on. *)
Definition redirect_exchange : list completion :=
  [Resolved ec_success; Connected ec_success;
   Written ec_success (size (request_header_buf_ sample_client));
   ReadDone ec_success (str "HTTP/1.1 302 Found" ++ CRLF);
   ReadDone ec_success (str "Location: http://example.com/new" ++ CRLF ++ CRLF)].

Definition streamed_exchange : list completion :=
  [Resolved ec_success; Connected ec_success;
   Written ec_success (size (request_header_buf_ sample_client));
   ReadDone ec_success (str "HTTP/1.1 200 OK" ++ CRLF);
   ReadDone ec_success (str "Content-Length: 5" ++ CRLF ++ CRLF ++ str "hel");
   ReadDone ec_success (str "lo");
   ReadDone ec_eof []].

(** What a streamed run leaves: the calls on the loader, what the body
    stream received and whether its producer end is still held. *)
Definition streamed_outcome (r : result World)
  : option (list loader_call * list cell * bool) :=
  match r with
  | Ok w => Some (loader_calls (loader_ w), stream_received (kernel w),
                  response_body_stream_ (client w))
  | _ => None
  end.

Definition redirect_outcome (r : result World)
  : option (N * bytes * list loader_call * option continuation) :=
  match r with
  | Ok w => Some (status_code_ (client w), redirect_location_ (client w),
                  loader_calls (loader_ w), pending w)
  | _ => None
  end.

(** ** Notions for the further properties *)

(** The world a run ends in; the starting world when the run has no
    defined end. *)
Definition final_world (w : World) (evs : list completion) : World :=
  match run w evs with
  | Ok w' => w'
  | _ => w
  end.

Definition plain_start : World :=
  Start (sample_world nonssl_socket_t false
           (sample_kernel MX_OK [write_ok 65536; write_ok 65536] [])).

Definition tls_start : World :=
  Start (sample_world ssl_socket_t false
           (sample_kernel MX_OK [write_ok 65536; write_ok 65536] [])).

(** Before the TLS handshake is over: the socket is of the TLS kind, it has
    taken no request byte, and what is in flight, if anything, is the
    resolve, the connect or the handshake. *)
Definition before_handshake (w : World) : Prop :=
  flavor w = ssl_socket_t
  /\ wire_sent w = []
  /\ (pending w = None \/ pending w = Some K_OnResolve
      \/ pending w = Some K_OnConnect \/ pending w = Some K_OnHandShake).

(** A TLS exchange up to the first bytes of the request. *)
Definition tls_request_start : list completion :=
  [Resolved ec_success; Connected ec_success; Written ec_success 10;
   HandShaken ec_success; Written ec_success 10].

Definition starts_with (p : ascii -> bool) (s : bytes) : bool :=
  match s with
  | c :: _ => p c
  | [] => false
  end.

Definition is_sign (c : ascii) : bool := Ascii.eqb c "+" || Ascii.eqb c "-".

(** A token: not empty, without white space. *)
Definition is_token (s : bytes) : bool :=
  negb (is_nil s) && forallb (fun c => negb (isspace c)) s.

(** A status line [version SP digits reason LF] the client takes: the
    version begins with HTTP/, the digits denote a number an
    [unsigned int] holds, and the reason, which runs to the line feed,
    does not go on with a digit. *)
Definition status_line_ok (version digits reason : bytes) : bool :=
  bytes_eqb (firstn 5 version) (str "HTTP/")
  && is_token version
  && negb (is_nil digits) && forallb isdigit digits
  && (decimal_value digits <=? UINT_MAX)%N
  && forallb (fun c => negb (Ascii.eqb c LF)) reason
  && negb (starts_with isdigit reason).

(** What [OnReadStatusLine] leaves when it rejects the response. *)
Definition rejected_as_invalid (w w' : World) : Prop :=
  loader_calls (loader_ w')
  = loader_calls (loader_ w) ++ [SendError NETWORK_ERR_INVALID_RESPONSE]
  /\ pending w' = None.

Definition world_reading_status (buf : bytes) : World :=
  set_pending (Some K_OnReadStatusLine)
    (set_client (set_response_buf_ buf sample_client)
       (sample_world nonssl_socket_t false (sample_kernel MX_OK [] []))).

(** The bytes the header block takes in its buffer, the blank line
    included. *)
Fixpoint block_length (ls : list bytes) : nat :=
  match ls with
  | [] => 0
  | l :: ls' =>
      if bytes_eqb l [CR] then 2 else S (length l) + block_length ls'
  end.

(** What follows the header block: the first bytes of the body. *)
Definition after_header_block (buf : bytes) : bytes :=
  skipn (block_length (split_lines buf)) buf.

(** The headers of a block, one pair for each line, in order. *)
Definition parsed_headers (block : list bytes) : list (bytes * bytes) :=
  map (fun l => (field_name l, field_value l)) block.

(** The response made of the status the client holds and of a header
    block. *)
Definition envelope (w : World) (block : list bytes) (b : URLBody)
  : URLResponse :=
  {| status_code := status_code_ (client w);
     status_line := http_version_ (client w) ++ str " "
                    ++ to_string (status_code_ (client w))
                    ++ status_message_ (client w);
     url := current_url_ (loader_ w);
     headers := parsed_headers block;
     body := b |}.

(** A 200 response whose headers and first body bytes are in the buffer. *)
Definition sample_headers_buf : bytes :=
  str "Content-Length: 5" ++ CRLF ++ str "Set-Cookie: a=1" ++ CRLF
  ++ str "Set-Cookie: b=2" ++ CRLF ++ CRLF ++ str "hel".

Definition world_reading_headers (buffered : bool) : World :=
  set_pending (Some K_OnReadHeaders)
    (set_client
       (set_response_buf_ sample_headers_buf
          (set_status (str "HTTP/1.1") 200 (str " OK" ++ [CR]) sample_client))
       (sample_world nonssl_socket_t buffered
          (sample_kernel MX_OK [write_ok 65536] []))).

(** Writes that surely suffice for a buffer of [n] bytes. *)
Definition writes_for (n : N) : nat :=
  S (N.to_nat (n / TransferBuffer_size)).

Definition writes_for_all (chunks : list bytes) : nat :=
  fold_right (fun c k => writes_for (size c) + k) 0 chunks.

(** The reads of a body that arrives in [chunks] until a read ends with
    [err]. *)
Definition body_reads (chunks : list bytes) (err : error_code)
  : list completion :=
  map (ReadDone ec_success) chunks ++ [ReadDone err []].

(** The body stream does not take the write: it fails, or it has no room
    and the wait for room fails. *)
Definition refuses (r : sys_reply) : bool :=
  if (reply_status r =? MX_ERR_SHOULD_WAIT)%Z
  then negb (reply_wait r =? MX_OK)%Z
  else negb (reply_status r =? MX_OK)%Z.

Definition failing_reader : UploadElementReader :=
  {| read_data := str "par"; read_status := MX_ERR_NO_MEMORY |}.

(* ================================================================== *)
(** * Properties *)

(** ** Bytes *)

Lemma bytes_eqb_spec (a b : bytes) : reflect (a = b) (bytes_eqb a b).
Proof.
  revert b; induction a as [|x a IH]; intros [|y b]; simpl;
    try (constructor; congruence).
  destruct (Ascii.eqb_spec x y) as [->|Hxy]; simpl.
  - destruct (IH b) as [->|Hab]; constructor; congruence.
  - constructor; congruence.
Qed.

Lemma bytes_eqb_eq (a b : bytes) : bytes_eqb a b = true <-> a = b.
Proof. destruct (bytes_eqb_spec a b); split; congruence. Qed.

Lemma bytes_eqb_neq (a b : bytes) : bytes_eqb a b = false <-> a <> b.
Proof. destruct (bytes_eqb_spec a b); split; congruence. Qed.

(** ** Searching a string *)

Section Search.

Variable p : ascii -> bool.

Lemma find_offset_le (s : bytes) : find_offset p s <= length s.
Proof. induction s as [|c s IH]; simpl; [|destruct (p c); simpl]; lia. Qed.

Lemma find_offset_none (s : bytes) :
  existsb p s = false -> find_offset p s = length s.
Proof.
  induction s as [|c s IH]; simpl; auto.
  destruct (p c); simpl; [discriminate|]. intros H; f_equal; auto.
Qed.

Lemma find_offset_some (s : bytes) :
  existsb p s = true -> find_offset p s < length s.
Proof.
  induction s as [|c s IH]; simpl; [discriminate|].
  destruct (p c); simpl; [lia|]. intros H; apply IH in H; lia.
Qed.

Lemma firstn_find_offset (s : bytes) :
  firstn (find_offset p s) s = take_while (fun c => negb (p c)) s.
Proof.
  induction s as [|c s IH]; simpl; auto.
  destruct (p c); simpl; [reflexivity|]. now rewrite IH.
Qed.

Lemma skipn_find_offset (s : bytes) :
  skipn (find_offset p s) s = skip_while (fun c => negb (p c)) s.
Proof.
  induction s as [|c s IH]; simpl; auto.
  destruct (p c); simpl; [reflexivity|]. now rewrite IH.
Qed.

(** Past a prefix on which [p] fails the search goes on unchanged. *)
Lemma find_offset_skipn (q : ascii -> bool) (s : bytes) :
  (forall c, p c = true -> q c = true) ->
  find_offset p (skipn (find_offset q s) s)
  = find_offset p s - find_offset q s.
Proof.
  intros Hpq. induction s as [|c s IH]; simpl; auto.
  destruct (q c) eqn:Hq; simpl.
  - destruct (p c); simpl; lia.
  - destruct (p c) eqn:Hp; [apply Hpq in Hp; congruence|]. simpl. apply IH.
Qed.

Lemma find_offset_mono (q : ascii -> bool) (s : bytes) :
  (forall c, p c = true -> q c = true) ->
  find_offset q s <= find_offset p s.
Proof.
  intros Hpq. induction s as [|c s IH]; simpl; auto.
  destruct (q c) eqn:Hq; simpl; [lia|].
  destruct (p c) eqn:Hp; [apply Hpq in Hp; congruence|]. lia.
Qed.

End Search.

Lemma skip_while_ext (p q : ascii -> bool) (s : bytes) :
  (forall c, p c = q c) -> skip_while p s = skip_while q s.
Proof.
  intros H. induction s as [|c s IH]; simpl; auto.
  rewrite H, IH. reflexivity.
Qed.

Lemma take_while_ext (p q : ascii -> bool) (s : bytes) :
  (forall c, p c = q c) -> take_while p s = take_while q s.
Proof.
  intros H. induction s as [|c s IH]; simpl; auto.
  rewrite H, IH. reflexivity.
Qed.

Lemma take_while_app_stop (p : ascii -> bool) (a : bytes) (c : ascii)
  (rest : bytes) :
  forallb p a = true -> p c = false -> take_while p (a ++ c :: rest) = a.
Proof.
  intros Ha Hc. induction a as [|x a IH]; simpl in *.
  - now rewrite Hc.
  - apply andb_true_iff in Ha as [-> Ha]. now rewrite IH.
Qed.

Lemma take_while_all (p : ascii -> bool) (a : bytes) :
  forallb p a = true -> take_while p a = a.
Proof.
  induction a as [|x a IH]; simpl; auto.
  intros Ha. apply andb_true_iff in Ha as [-> Ha]. now rewrite IH.
Qed.

Lemma skip_while_app_stop (p : ascii -> bool) (a : bytes) (c : ascii)
  (rest : bytes) :
  forallb p a = true -> p c = false ->
  skip_while p (a ++ c :: rest) = c :: rest.
Proof.
  intros Ha Hc. induction a as [|x a IH]; simpl in *.
  - now rewrite Hc.
  - apply andb_true_iff in Ha as [-> Ha]. now rewrite IH.
Qed.

Lemma skip_while_all (p : ascii -> bool) (a : bytes) :
  forallb p a = true -> skip_while p a = [].
Proof.
  induction a as [|x a IH]; simpl; auto.
  intros Ha. apply andb_true_iff in Ha as [-> Ha]. now rewrite IH.
Qed.

(** ** Header-field parsing *)

(** A line with a colon parses, into the name and value of the rule. *)
Lemma ParseHeaderField_colon (header : bytes) :
  has_colon header = true ->
  ParseHeaderField header = Ok (field_name header, field_value header).
Proof.
  intros Hc. unfold ParseHeaderField, std_find_if at 1. simpl.
  apply find_offset_some in Hc.
  set (k := find_offset (Ascii.eqb COLON) header) in *.
  unfold std_string at 1. simpl. rewrite Nat.sub_0_r.
  unfold std_find_if.
  replace (k + 1 <=? length header) with true
    by (symmetry; apply Nat.leb_le; lia).
  simpl.
  set (t := skipn (k + 1) header).
  set (a := find_offset (fun c => negb (Ascii.eqb c SP)) t).
  set (b := find_offset (fun c => Ascii.eqb c CR) t).
  assert (Hab : a <= b).
  { apply find_offset_mono. intros c Hcr.
    apply Ascii.eqb_eq in Hcr; subst c. reflexivity. }
  unfold std_string.
  replace (k + 1 + a <=? k + 1 + b) with true
    by (symmetry; apply Nat.leb_le; lia).
  simpl. do 2 f_equal.
  - unfold field_name. subst k. apply firstn_find_offset.
  - unfold field_value.
    assert (Ht : t = tl (skip_while (fun c => negb (Ascii.eqb COLON c)) header)).
    { subst t k. rewrite <- skipn_find_offset.
      replace (find_offset (Ascii.eqb COLON) header + 1)
        with (1 + find_offset (Ascii.eqb COLON) header) by lia.
      rewrite <- skipn_skipn.
      destruct (skipn (find_offset (Ascii.eqb COLON) header) header);
        reflexivity. }
    rewrite <- Ht.
    replace (skipn (k + 1 + a) header) with (skipn a t)
      by (subst t; rewrite skipn_skipn; f_equal; lia).
    replace (k + 1 + b - (k + 1 + a)) with (b - a) by lia.
    subst a b.
    rewrite <- (find_offset_skipn (fun c => Ascii.eqb c CR)
                  (fun c => negb (Ascii.eqb c SP)) t).
    + rewrite firstn_find_offset, skipn_find_offset.
      f_equal. apply skip_while_ext. intros c. apply negb_involutive.
    + intros c Hcr. apply Ascii.eqb_eq in Hcr; subst c. reflexivity.
Qed.

(** A line without a colon leaves [name_end] at [header.end()], and the
    searches for the value start one past it. *)
Lemma ParseHeaderField_no_colon (header : bytes) :
  has_colon header = false -> ParseHeaderField header = Undefined.
Proof.
  intros Hc. unfold ParseHeaderField, std_find_if at 1. simpl.
  rewrite (find_offset_none _ _ Hc).
  unfold std_string at 1. simpl.
  unfold std_find_if at 1.
  replace (length header + 1 <=? length header) with false
    by (symmetry; apply Nat.leb_gt; lia).
  reflexivity.
Qed.

(** X11. The line [Name: Value] with its carriage return parses to the
    name and the value, whatever the number of spaces after the colon and
    whatever follows the carriage return, for a name without colon and a
    value that holds no carriage return and does not begin with a space;
    the value may be empty and may hold colons. *)
Lemma ParseHeaderField_name_value (name value rest : bytes) (spaces : nat) :
  ~ In COLON name ->
  ~ In CR value ->
  hd_error value <> Some SP ->
  ParseHeaderField (name ++ COLON :: repeat SP spaces ++ value ++ CR :: rest)
  = Ok (name, value).
Proof.
  intros Hname Hvalue Hsp.
  assert (Hn : forallb (fun c => negb (Ascii.eqb COLON c)) name = true).
  { apply forallb_forall. intros c Hin. apply negb_true_iff.
    apply Ascii.eqb_neq. intros <-. auto. }
  assert (Hv : forallb (fun c => negb (Ascii.eqb c CR)) value = true).
  { apply forallb_forall. intros c Hin. apply negb_true_iff.
    apply Ascii.eqb_neq. intros ->. auto. }
  rewrite ParseHeaderField_colon.
  - unfold field_name, field_value.
    rewrite take_while_app_stop by (auto; apply negb_false_iff, Ascii.eqb_refl).
    rewrite skip_while_app_stop by (auto; apply negb_false_iff, Ascii.eqb_refl).
    simpl tl. f_equal. f_equal.
    assert (Hskip : skip_while (fun c => Ascii.eqb c SP)
                      (repeat SP spaces ++ value ++ CR :: rest)
                    = value ++ CR :: rest).
    { clear - Hsp. induction spaces as [|n IH]; simpl; auto.
      destruct value as [|c value]; simpl; auto.
      destruct (Ascii.eqb_spec c SP) as [->|]; auto.
      exfalso; apply Hsp; reflexivity. }
    rewrite Hskip.
    apply take_while_app_stop; auto.
  - unfold has_colon. rewrite existsb_app. apply orb_true_iff. right.
    reflexivity.
Qed.

(** ** Reading lines *)

Lemma split_lines_cons (d : bytes) :
  d <> [] -> split_lines d = line_of d :: split_lines (after_line d).
Proof.
  induction d as [|c d IH]; [congruence|]. intros _.
  unfold line_of, after_line in *. simpl.
  destruct (Ascii.eqb_spec c LF) as [->|Hc]; simpl; [reflexivity|].
  destruct d as [|c' d]; [reflexivity|].
  rewrite IH by congruence. reflexivity.
Qed.

Lemma after_line_length (d : bytes) :
  d <> [] -> length (after_line d) < length d.
Proof.
  induction d as [|c d IH]; [congruence|]. intros _.
  unfold after_line in *. simpl.
  destruct (Ascii.eqb c LF); simpl; [lia|].
  destruct d as [|c' d]; [simpl; lia|].
  specialize (IH ltac:(congruence)). simpl in *. lia.
Qed.

Lemma ends_without_LF_after_line (d : bytes) :
  ends_without_LF d = true -> after_line d = [].
Proof.
  unfold ends_without_LF, after_line.
  destruct (skip_while _ d); [reflexivity | discriminate].
Qed.

Section HeadersLoop.

Context {A : Type} (body : bytes -> bytes -> A -> A).

(** On a stream that has not failed, the loop parses the header block
    line by line.  The stream is either good or at its end and empty. *)
Lemma headers_loop_block (fuel : nat) :
  forall (s : istream) (acc : A),
    is_fail s = false ->
    (is_eof s = true -> is_data s = []) ->
    length (is_data s) < fuel ->
    Forall (fun l => has_colon l = true) (header_block (is_data s)) ->
    exists s',
      headers_loop body fuel s acc
      = Ok (s', fold_headers body (header_block (is_data s)) acc).
Proof.
  induction fuel as [|fuel IH]; intros s acc Hfail Heof Hlen Hwf; [lia|].
  destruct s as [d eof fail]; simpl in *. subst fail.
  unfold getline, good; simpl.
  destruct eof; simpl.
  - rewrite (Heof eq_refl). eexists; reflexivity.
  - destruct d as [|c d]; simpl is_nil; cbv iota.
    + eexists; reflexivity.
    + set (d0 := c :: d) in *.
      assert (Hd0 : d0 <> []) by (subst d0; congruence).
      unfold header_block in *.
      rewrite (split_lines_cons d0 Hd0) in *. simpl before_blank in *.
      cbv beta iota zeta. simpl is_fail. simpl orb.
      destruct (bytes_eqb (line_of d0) [CR]) eqn:Hblank.
      * eexists; reflexivity.
      * inversion Hwf as [|? ? Hcolon Hrest]; subst.
        rewrite (ParseHeaderField_colon _ Hcolon). simpl bind.
        pose proof (after_line_length d0 Hd0) as Hshort.
        destruct (IH {| is_data := after_line d0;
                        is_eof := ends_without_LF d0; is_fail := false |}
                    (body (field_name (line_of d0))
                       (field_value (line_of d0)) acc))
          as [s' Hs']; simpl; auto.
        -- apply ends_without_LF_after_line.
        -- subst d0; simpl in *; lia.
        -- exists s'. simpl in Hs'. rewrite Hs'. reflexivity.
Qed.

(** Fuel above the length of a buffer is never used up: more changes
    nothing. *)
Lemma headers_loop_fuel (buf : bytes) (acc : A) (extra : nat) :
  Forall (fun l => has_colon l = true) (header_block buf) ->
  exists s',
    headers_loop body (S (length buf) + extra) (istream_on buf) acc
    = Ok (s', fold_headers body (header_block buf) acc).
Proof.
  intros Hwf.
  apply headers_loop_block; simpl; auto; try discriminate; lia.
Qed.

End HeadersLoop.

Lemma last_default_irrelevant {A : Type} (x : A) (xs : list A) (d d' : A) :
  last (x :: xs) d = last (x :: xs) d'.
Proof.
  revert x; induction xs as [|y xs IH]; intros x; [reflexivity|].
  change (last (y :: xs) d = last (y :: xs) d'). apply IH.
Qed.

Lemma last_cons_default {A : Type} (x : A) (xs : list A) (d : A) :
  last (x :: xs) d = last xs x.
Proof.
  destruct xs as [|y xs]; [reflexivity|].
  change (last (y :: xs) d = last (y :: xs) x). apply last_default_irrelevant.
Qed.

(** The scan of the redirect branch keeps the value of the last header
    named [Location]. *)
Lemma fold_redirect_body (block : list bytes) (loc : bytes) :
  fold_headers redirect_body block loc
  = last (map field_value (filter is_Location block)) loc.
Proof.
  revert loc; induction block as [|l block IH]; intros loc; [reflexivity|].
  unfold fold_headers in *. simpl. rewrite IH.
  unfold redirect_body, is_Location.
  destruct (bytes_eqb (field_name l) (str "Location")); [|reflexivity].
  simpl map. symmetry. apply last_cons_default.
Qed.

Lemma is_redirect_spec (code : N) :
  is_redirect code = true <-> code = 301%N \/ code = 302%N.
Proof.
  unfold is_redirect. rewrite orb_true_iff, !N.eqb_eq. reflexivity.
Qed.

(** The redirect branch of [OnReadHeaders], as a whole. *)
Lemma OnReadHeaders_redirect (w : World) :
  is_redirect (status_code_ (client w)) = true ->
  well_formed_block (header_block (response_buf_ (client w))) = true ->
  exists buf,
    OnReadHeaders w ec_success
    = Ok (set_pending None
            (set_client
               (set_redirect_location_
                  (last_Location (header_block (response_buf_ (client w))))
                  (set_response_buf_ buf (client w))) w)).
Proof.
  intros Hcode Hwf. unfold OnReadHeaders. simpl negb. cbv iota.
  rewrite Hcode.
  unfold well_formed_block in Hwf.
  rewrite forallb_forall in Hwf. apply Forall_forall in Hwf.
  destruct (headers_loop_fuel redirect_body (response_buf_ (client w)) [] 0 Hwf)
    as [s' Hs'].
  rewrite Nat.add_0_r in Hs'. rewrite Hs'. simpl.
  rewrite fold_redirect_body. exists (is_data s'). reflexivity.
Qed.

(** ** Redirects *)

(** X17. For a response with status code 301 or 302 whose header lines each
    hold a colon, [OnReadHeaders] records as redirect target the value of
    the last header of the block named [Location]; it makes no call on the
    loader, touches no kernel object, sets no response and leaves nothing
    in flight, so no response or body is delivered for the request. *)
Theorem redirect_target_is_last_Location (w : World) :
  status_code_ (client w) = 301%N \/ status_code_ (client w) = 302%N ->
  well_formed_block (header_block (response_buf_ (client w))) = true ->
  exists w',
    OnReadHeaders w ec_success = Ok w'
    /\ redirect_location_ (client w')
       = last_Location (header_block (response_buf_ (client w)))
    /\ loader_calls (loader_ w') = loader_calls (loader_ w)
    /\ kernel w' = kernel w
    /\ response_ (client w') = response_ (client w)
    /\ pending w' = None.
Proof.
  intros Hcode Hwf. apply is_redirect_spec in Hcode.
  destruct (OnReadHeaders_redirect w Hcode Hwf) as [buf Hrun].
  eexists. split; [exact Hrun|]. simpl. repeat split; reflexivity.
Qed.

Lemma redirect_target_is_last_Location_witness :
  exists w',
    OnReadHeaders sample_redirect ec_success = Ok w'
    /\ redirect_location_ (client w')
       = last_Location (header_block (response_buf_ (client sample_redirect)))
    /\ loader_calls (loader_ w') = loader_calls (loader_ sample_redirect)
    /\ kernel w' = kernel sample_redirect
    /\ response_ (client w') = response_ (client sample_redirect)
    /\ pending w' = None.
Proof.
  apply (redirect_target_is_last_Location sample_redirect).
  - right. reflexivity.
  - reflexivity.
Defined.

Example sample_redirect_target :
  last_Location (header_block (response_buf_ (client sample_redirect)))
  = str "http://example.com/new".
Proof. reflexivity. Qed.

(** ** Request builder *)

Lemma IsMethodAllowed_spec (method : bytes) :
  IsMethodAllowed method = true <-> In method ALLOWED_METHODS.
Proof.
  unfold IsMethodAllowed. rewrite existsb_exists. split.
  - intros [m [Hin Heq]]. apply bytes_eqb_eq in Heq. now subst.
  - intros Hin. exists method. split; auto. now apply bytes_eqb_eq.
Qed.

Lemma read_elements_succeed (rs : list UploadElementReader) (stream : bytes) :
  readers_succeed rs = true -> snd (read_elements rs stream) = MX_OK.
Proof.
  revert stream; induction rs as [|r rs IH]; intros stream H; [reflexivity|].
  simpl in *. apply andb_true_iff in H as [Hr Hrs]. rewrite Hr. auto.
Qed.

(** C6. A method outside the list GET, HEAD, POST, PUT, DELETE, TRACE,
    CONNECT, PATCH (compared byte for byte) makes [CreateRequest] return
    [MX_ERR_INVALID_ARGS] at once, whatever the other arguments, with the
    client untouched: nothing is serialized and no reader is run.  A method
    of the list passes the check, and the request is built ([MX_OK]) when
    the readers succeed. *)
Theorem CreateRequest_method_allow_list (c : HTTPClient)
  (server path method : bytes) (extra_headers : list (bytes * bytes))
  (element_readers : list UploadElementReader) :
  (~ In method [str "GET"; str "HEAD"; str "POST"; str "PUT"; str "DELETE";
                str "TRACE"; str "CONNECT"; str "PATCH"] ->
   CreateRequest c server path method extra_headers element_readers
   = (MX_ERR_INVALID_ARGS, c))
  /\ (In method [str "GET"; str "HEAD"; str "POST"; str "PUT"; str "DELETE";
                 str "TRACE"; str "CONNECT"; str "PATCH"] ->
      IsMethodAllowed method = true
      /\ (readers_succeed element_readers = true ->
          fst (CreateRequest c server path method extra_headers
                 element_readers) = MX_OK)).
Proof.
  change [str "GET"; str "HEAD"; str "POST"; str "PUT"; str "DELETE";
          str "TRACE"; str "CONNECT"; str "PATCH"] with ALLOWED_METHODS.
  split.
  - intros Hnot. unfold CreateRequest.
    destruct (IsMethodAllowed method) eqn:Hm; [|reflexivity].
    apply IsMethodAllowed_spec in Hm. contradiction.
  - intros Hin. apply IsMethodAllowed_spec in Hin. split; [exact Hin|].
    intros Hrs. unfold CreateRequest. rewrite Hin. simpl negb. cbv iota.
    destruct (write_extra_headers _ _ _) as [h has_accept].
    pose proof (read_elements_succeed element_readers (request_body_buf_ c) Hrs)
      as Hok.
    destruct (read_elements _ _) as [b result]. simpl in Hok. subst result.
    reflexivity.
Qed.

Lemma CreateRequest_method_allow_list_witness :
  CreateRequest (HTTPClient_new 0) (str "example.com") (str "/index.html")
    (str "get") sample_headers [sample_reader]
  = (MX_ERR_INVALID_ARGS, HTTPClient_new 0)
  /\ fst (CreateRequest (HTTPClient_new 0) (str "example.com")
            (str "/index.html") (str "GET") sample_headers [sample_reader])
     = MX_OK.
Proof.
  split.
  - apply (proj1 (CreateRequest_method_allow_list (HTTPClient_new 0)
                    (str "example.com") (str "/index.html") (str "get")
                    sample_headers [sample_reader])).
    vm_compute. intuition discriminate.
  - apply (proj2 (CreateRequest_method_allow_list (HTTPClient_new 0)
                    (str "example.com") (str "/index.html") (str "GET")
                    sample_headers [sample_reader])).
    + left. reflexivity.
    + reflexivity.
Defined.

(** Lists of characters, nested to the right. *)
Ltac list_norm :=
  repeat (progress (cbn [app]; repeat rewrite <- app_assoc)).

Lemma free_of_LF_spec (s : bytes) : free_of_LF s = true <-> ~ In LF s.
Proof.
  unfold free_of_LF. rewrite negb_true_iff. split.
  - intros H Hin. assert (existsb (Ascii.eqb LF) s = true); [|congruence].
    apply existsb_exists. exists LF. split; auto.
  - intros H. destruct (existsb (Ascii.eqb LF) s) eqn:E; [|reflexivity].
    apply existsb_exists in E as [c [Hin Hc]].
    apply Ascii.eqb_eq in Hc. subst c. contradiction.
Qed.

Lemma free_of_LF_app (a b : bytes) :
  free_of_LF (a ++ b) = free_of_LF a && free_of_LF b.
Proof. unfold free_of_LF. rewrite existsb_app. apply negb_orb. Qed.

Lemma split_lines_line (l rest : bytes) :
  free_of_LF l = true -> split_lines (l ++ LF :: rest) = l :: split_lines rest.
Proof.
  induction l as [|c l IH]; intros H; [reflexivity|].
  unfold free_of_LF in H. cbn [existsb] in H.
  apply negb_true_iff, orb_false_iff in H as [Hc Hl].
  cbn [app split_lines]. rewrite Ascii.eqb_sym, Hc. rewrite IH; [reflexivity|].
  unfold free_of_LF. now rewrite Hl.
Qed.

Lemma split_lines_unlines (ls : list bytes) :
  forallb free_of_LF ls = true -> split_lines (unlines ls) = ls.
Proof.
  induction ls as [|l ls IH]; intros H; [reflexivity|].
  simpl in H. apply andb_true_iff in H as [Hl Hls].
  unfold unlines in *. simpl. rewrite <- app_assoc. simpl.
  rewrite split_lines_line by assumption. now rewrite IH.
Qed.

Lemma unlines_app (a b : list bytes) : unlines (a ++ b) = unlines a ++ unlines b.
Proof. unfold unlines. now rewrite map_app, concat_app. Qed.

(** The loop over the extra headers writes their lines in order and
    reports whether one of the names equals "accept". *)
Lemma write_extra_headers_spec (hs : list (bytes * bytes)) (stream : bytes)
  (acc : bool) :
  write_extra_headers hs stream acc
  = (stream ++ unlines (map header_line hs), acc || has_accept_key hs).
Proof.
  revert stream acc; induction hs as [|[k v] hs IH]; intros stream acc.
  - simpl. now rewrite app_nil_r, orb_false_r.
  - simpl. rewrite IH. f_equal.
    + unfold unlines, header_line, CRLF. simpl. list_norm. reflexivity.
    + now rewrite orb_assoc.
Qed.

Lemma digits_free_of_LF (d : Decimal.uint) :
  free_of_LF (str (NilEmpty.string_of_uint d)) = true.
Proof. induction d; simpl; auto. Qed.

Lemma to_string_free_of_LF (n : N) : free_of_LF (to_string n) = true.
Proof. apply digits_free_of_LF. Qed.

(** Only the name [Accept] and the value [*/*] give the synthesized line. *)
Lemma header_line_is_accept_line (k v : bytes) :
  header_line (k, v) = accept_line -> k = str "Accept".
Proof.
  unfold header_line, accept_line. simpl. intros H.
  do 13 (destruct k as [|? k]; simpl in H;
         [ try discriminate H; try reflexivity
         | first [discriminate H | injection H as -> H] ]).
Qed.

Lemma header_lines_lack_accept_line (hs : list (bytes * bytes)) :
  has_accept_key hs = false -> ~ In accept_line (map header_line hs).
Proof.
  intros Hno Hin. apply in_map_iff in Hin as [[k v] [Heq Hin]].
  apply header_line_is_accept_line in Heq. subst k.
  assert (has_accept_key hs = true); [|congruence].
  apply existsb_exists. exists (str "Accept", v). split; auto.
Qed.

Lemma request_line_not_accept (method path : bytes) :
  In method ALLOWED_METHODS -> request_line method path <> accept_line.
Proof.
  intros Hin. simpl in Hin.
  repeat (destruct Hin as [<-|Hin]; [discriminate|]). contradiction.
Qed.

Lemma allowed_method_free_of_LF (method : bytes) :
  In method ALLOWED_METHODS -> free_of_LF method = true.
Proof.
  intros Hin. simpl in Hin.
  repeat (destruct Hin as [<-|Hin]; [reflexivity|]). contradiction.
Qed.

(** The header block that a successful [CreateRequest] leaves in a fresh
    client, line by line. *)
Lemma CreateRequest_header_lines (junk : N) (server path method : bytes)
  (hs : list (bytes * bytes)) (rs : list UploadElementReader)
  (c' : HTTPClient) :
  CreateRequest (HTTPClient_new junk) server path method hs rs = (MX_OK, c') ->
  In method ALLOWED_METHODS
  /\ request_header_buf_ c'
     = unlines ([request_line method path; host_line server; connection_line]
                ++ map header_line hs
                ++ (if has_accept_key hs then [] else [accept_line])
                ++ content_length_lines (request_body_buf_ c')
                ++ [[CR]]).
Proof.
  unfold CreateRequest.
  destruct (IsMethodAllowed method) eqn:Hm; simpl negb; cbv iota;
    [|discriminate].
  apply IsMethodAllowed_spec in Hm.
  rewrite write_extra_headers_spec. simpl orb.
  destruct (read_elements rs _) as [b result].
  destruct (result =? MX_OK)%Z eqn:Hr; simpl negb; cbv iota.
  - intros H. injection H as <-. split; [exact Hm|].
    simpl request_header_buf_. simpl request_body_buf_.
    unfold content_length_lines.
    rewrite !unlines_app.
    destruct (has_accept_key hs); destruct (0 <? size b)%N;
      unfold unlines, request_line, host_line, connection_line, accept_line,
        CRLF; simpl; list_norm; reflexivity.
  - intros H. injection H as H _. apply Z.eqb_neq in Hr. congruence.
Qed.

Lemma header_lines_free_of_LF (hs : list (bytes * bytes)) :
  headers_free_of_LF hs = true ->
  forallb free_of_LF (map header_line hs) = true.
Proof.
  induction hs as [|[k v] hs IH]; intros H; [reflexivity|].
  unfold headers_free_of_LF in *. cbn [forallb map] in *.
  apply andb_true_iff in H as [Hkv Hhs]. apply andb_true_iff in Hkv as [Hk Hv].
  cbn [fst snd] in *. rewrite IH by assumption.
  unfold header_line. cbn [fst snd].
  rewrite !free_of_LF_app, Hk, Hv. reflexivity.
Qed.

Lemma content_length_lines_free_of_LF (b : bytes) :
  forallb free_of_LF (content_length_lines b) = true.
Proof.
  unfold content_length_lines. destruct (0 <? size b)%N; [|reflexivity].
  cbn [forallb]. rewrite !free_of_LF_app, to_string_free_of_LF. reflexivity.
Qed.

Lemma content_length_lines_lack_accept_line (b : bytes) :
  ~ In accept_line (content_length_lines b ++ [[CR]]).
Proof.
  unfold content_length_lines. intros Hin.
  apply in_app_or in Hin as [Hin|Hin].
  - destruct (0 <? size b)%N; simpl in Hin; [|contradiction].
    destruct Hin as [H|[]]. discriminate H.
  - simpl in Hin. destruct Hin as [H|[]]. discriminate H.
Qed.

(** C7. A request built in a fresh client serializes its header block as
    these lines, a line feed after each: the request line, [Host],
    [Connection: close], the extra headers in order, the synthesized
    [Accept: */*] exactly when no extra header has a name equal to "accept"
    regardless of case, the optional [Content-Length] and the blank line.
    When the server, the path and the extra headers hold no line feed these
    are the lines of the block as a reader splits it.  Without such a name
    the line [Accept: */*] occurs exactly once among them; with one it
    occurs only as often as the caller supplied it, none being
    synthesized. *)
Theorem CreateRequest_accept_synthesis (junk : N) (server path method : bytes)
  (extra_headers : list (bytes * bytes))
  (element_readers : list UploadElementReader) (c' : HTTPClient) :
  CreateRequest (HTTPClient_new junk) server path method extra_headers
    element_readers = (MX_OK, c') ->
  let fixed := [request_line method path; host_line server; connection_line] in
  let tail := content_length_lines (request_body_buf_ c') ++ [[CR]] in
  let lines :=
    fixed ++ map header_line extra_headers
    ++ (if has_accept_key extra_headers then [] else [accept_line]) ++ tail in
  request_header_buf_ c' = unlines lines
  /\ (free_of_LF server = true -> free_of_LF path = true ->
      headers_free_of_LF extra_headers = true ->
      split_lines (request_header_buf_ c') = lines)
  /\ (has_accept_key extra_headers = false ->
      count_occ bytes_eq_dec lines accept_line = 1)
  /\ (has_accept_key extra_headers = true ->
      count_occ bytes_eq_dec lines accept_line
      = count_occ bytes_eq_dec (map header_line extra_headers) accept_line).
Proof.
  intros Hrun fixed tail lines.
  destruct (CreateRequest_header_lines _ _ _ _ _ _ _ Hrun) as [Hm Hbuf].
  fold fixed tail lines in Hbuf.
  assert (H1 : count_occ bytes_eq_dec fixed accept_line = 0).
  { apply count_occ_not_In. subst fixed. simpl.
    intros [H|[H|[H|[]]]]; try discriminate H.
    revert H. apply request_line_not_accept. exact Hm. }
  assert (H3 : count_occ bytes_eq_dec tail accept_line = 0).
  { apply count_occ_not_In. apply content_length_lines_lack_accept_line. }
  split; [exact Hbuf|]. split; [|split].
  - intros Hserver Hpath Hhs. rewrite Hbuf. apply split_lines_unlines.
    subst lines. rewrite !forallb_app, header_lines_free_of_LF by assumption.
    assert (Hfixed : forallb free_of_LF fixed = true).
    { subst fixed. cbn [forallb]. unfold request_line, host_line.
      rewrite !free_of_LF_app, Hserver, Hpath,
        (allowed_method_free_of_LF _ Hm). reflexivity. }
    assert (Htail : forallb free_of_LF tail = true).
    { subst tail. rewrite forallb_app, content_length_lines_free_of_LF.
      reflexivity. }
    rewrite Hfixed, Htail.
    destruct (has_accept_key extra_headers); reflexivity.
  - intros Hkey. subst lines. rewrite Hkey, !count_occ_app, H1, H3.
    assert (H2 : count_occ bytes_eq_dec (map header_line extra_headers)
                   accept_line = 0).
    { apply count_occ_not_In. apply header_lines_lack_accept_line. exact Hkey. }
    rewrite H2. cbn [count_occ].
    destruct (bytes_eq_dec accept_line accept_line); [reflexivity|congruence].
  - intros Hkey. subst lines. rewrite Hkey, !count_occ_app, H1, H3.
    cbn [count_occ]. lia.
Qed.

Lemma CreateRequest_accept_synthesis_witness :
  (let c' := snd (CreateRequest (HTTPClient_new 0) (str "example.com")
                    (str "/index.html") (str "POST") sample_headers
                    [sample_reader]) in
   split_lines (request_header_buf_ c')
   = [request_line (str "POST") (str "/index.html");
      host_line (str "example.com"); connection_line]
     ++ map header_line sample_headers ++ [accept_line]
     ++ content_length_lines (request_body_buf_ c') ++ [[CR]])
  /\ (let c' := snd (CreateRequest (HTTPClient_new 0) (str "example.com")
                       (str "/index.html") (str "POST")
                       sample_headers_with_accept [sample_reader]) in
      split_lines (request_header_buf_ c')
      = [request_line (str "POST") (str "/index.html");
         host_line (str "example.com"); connection_line]
        ++ map header_line sample_headers_with_accept
        ++ content_length_lines (request_body_buf_ c') ++ [[CR]]).
Proof.
  split.
  - apply (CreateRequest_accept_synthesis 0 (str "example.com")
             (str "/index.html") (str "POST") sample_headers [sample_reader]);
      reflexivity.
  - apply (CreateRequest_accept_synthesis 0 (str "example.com")
             (str "/index.html") (str "POST") sample_headers_with_accept
             [sample_reader]); reflexivity.
Defined.

Example sample_request_header :
  request_header_buf_
    (snd (CreateRequest (HTTPClient_new 0) (str "example.com")
            (str "/index.html") (str "POST") sample_headers [sample_reader]))
  = str "POST /index.html HTTP/1.1" ++ CRLF
    ++ str "Host: example.com" ++ CRLF
    ++ str "Connection: close" ++ CRLF
    ++ str "User-Agent: loader/1.0" ++ CRLF
    ++ str "X-Trace: on" ++ CRLF
    ++ str "Accept: */*" ++ CRLF
    ++ str "Content-Length: 5" ++ CRLF
    ++ CRLF.
Proof. reflexivity. Qed.

(** ** Writing the request *)

Lemma firstn_add_skipn {A : Type} (a b : nat) (l : list A) :
  firstn (a + b) l = firstn a l ++ firstn b (skipn a l).
Proof.
  revert l; induction a as [|a IH]; intros l; [reflexivity|].
  destruct l as [|x l]; simpl; [now rewrite firstn_nil|]. now rewrite IH.
Qed.

Lemma skipn_min_length {A : Type} (n : nat) (l : list A) :
  skipn (Nat.min n (length l)) l = skipn n l.
Proof.
  destruct (Nat.le_ge_cases n (length l)) as [H|H].
  - now rewrite Nat.min_l.
  - rewrite Nat.min_r, !skipn_all2 by lia. reflexivity.
Qed.

Lemma is_nil_size (b : bytes) : (0 <? size b)%N = negb (is_nil b).
Proof. destruct b; reflexivity. Qed.

Lemma concat_nonempty_bufs (h b : bytes) : concat (nonempty_bufs h b) = h ++ b.
Proof. destruct h, b; simpl; rewrite ?app_nil_r; reflexivity. Qed.

(** One completion of the write, [t] bytes having been taken. *)
Lemma OnWriteRequest_step (w : World) (t : N) :
  concat (request_bufs_ (client w))
  = request_header_buf_ (client w) ++ request_body_buf_ (client w) ->
  let h := request_header_buf_ (client w) in
  let b := request_body_buf_ (client w) in
  let w1 := OnWriteRequest (socket_took t w) ec_success t in
  request_header_buf_ (client w1) = skipn (N.to_nat (N.min t (size h))) h
  /\ request_body_buf_ (client w1) = skipn (N.to_nat (t - size h)) b
  /\ wire_sent w1 = wire_sent w ++ firstn (N.to_nat t) (h ++ b)
  /\ written_state w1.
Proof.
  intros Hbufs h b w1. subst w1. unfold OnWriteRequest. simpl negb. cbv iota.
  cbn [socket_took client set_wire_sent]. fold h b.
  set (tfh := N.min (size h) t).
  set (h1 := consume tfh h).
  set (b1 := if (tfh <? t)%N then consume (t - tfh) b else b).
  rewrite !is_nil_size.
  assert (Hh1 : h1 = skipn (N.to_nat (N.min t (size h))) h).
  { subst h1 tfh. unfold consume. now rewrite N.min_comm. }
  assert (Hb1 : b1 = skipn (N.to_nat (t - size h)) b).
  { subst b1 tfh. unfold consume, size.
    destruct (N.ltb_spec (N.min (N.of_nat (length h)) t) t) as [Hlt|Hge].
    - f_equal. lia.
    - replace (N.to_nat (t - N.of_nat (length h))) with 0 by lia. reflexivity. }
  replace ((if negb (is_nil h1) then [h1] else [])
           ++ (if negb (is_nil b1) then [b1] else []))
    with (nonempty_bufs h1 b1)
    by (unfold nonempty_bufs; destruct (is_nil h1), (is_nil b1); reflexivity).
  destruct (is_nil (nonempty_bufs h1 b1)) eqn:Hnil; simpl negb; cbv iota;
    (split; [exact Hh1|]; split; [exact Hb1|]; split;
     [ unfold socket_took; cbn [wire_sent set_wire_sent set_pending set_client];
       now rewrite Hbufs
     | split; cbn [client set_pending set_client set_request request_bufs_
                   request_header_buf_ request_body_buf_ pending];
       [reflexivity | now rewrite Hnil] ]).
Qed.

Lemma written_state_cases (w : World) :
  written_state w ->
  (pending w = Some K_OnWriteRequest
   /\ concat (request_bufs_ (client w))
      = request_header_buf_ (client w) ++ request_body_buf_ (client w))
  \/ (pending w = Some K_OnReadStatusLine
      /\ request_header_buf_ (client w) = []
      /\ request_body_buf_ (client w) = []).
Proof.
  intros [Hbufs Hpending]. rewrite Hbufs in Hpending.
  destruct (request_header_buf_ (client w)) as [|x h] eqn:Hh;
    destruct (request_body_buf_ (client w)) as [|y b] eqn:Hb;
    simpl in Hpending;
    [ right; auto
    | left; split; [exact Hpending | rewrite Hbufs; apply concat_nonempty_bufs]
      .. ].
Qed.

(** Any number of completions of the write, from a state the handler left. *)
Lemma run_write_completions (ts : list N) :
  forall w : World,
    written_state w ->
    (sum_N ts <= size (request_header_buf_ (client w))
                 + size (request_body_buf_ (client w)))%N ->
    exists w',
      run w (write_completions ts) = Ok w'
      /\ request_header_buf_ (client w')
         = skipn (N.to_nat (N.min (sum_N ts)
                              (size (request_header_buf_ (client w)))))
             (request_header_buf_ (client w))
      /\ request_body_buf_ (client w')
         = skipn (N.to_nat (sum_N ts - size (request_header_buf_ (client w))))
             (request_body_buf_ (client w))
      /\ wire_sent w'
         = wire_sent w
           ++ firstn (N.to_nat (sum_N ts))
                (request_header_buf_ (client w) ++ request_body_buf_ (client w))
      /\ written_state w'.
Proof.
  induction ts as [|t ts IH]; intros w Hw Hsum.
  - exists w. cbn [sum_N fold_right write_completions map run].
    rewrite N.min_0_l, N.sub_0_l. simpl. rewrite app_nil_r. auto.
  - cbn [sum_N fold_right] in *. fold (sum_N ts) in *.
    destruct (written_state_cases w Hw) as [[Hp Hbufs]|[Hp [Hh Hb]]].
    + cbn [write_completions map run]. unfold step. rewrite Hp. cbn [bind].
      destruct (OnWriteRequest_step w t Hbufs) as [Hh1 [Hb1 [Hwire Hw1]]].
      set (w1 := OnWriteRequest (socket_took t w) ec_success t) in *.
      set (h := request_header_buf_ (client w)) in *.
      set (b := request_body_buf_ (client w)) in *.
      destruct (IH w1 Hw1) as [w' [Hrun [Hh' [Hb' [Hwire' Hw']]]]].
      { rewrite Hh1, Hb1. unfold size in *. rewrite !length_skipn. lia. }
      exists w'. split; [exact Hrun|].
      split; [|split; [|split; [|exact Hw']]].
      * rewrite Hh', Hh1, skipn_skipn. f_equal.
        unfold size. rewrite length_skipn. lia.
      * rewrite Hb', Hb1, Hh1, skipn_skipn. f_equal.
        unfold size. rewrite length_skipn. lia.
      * rewrite Hwire', Hwire, <- app_assoc. f_equal.
        replace (N.to_nat (t + sum_N ts))
          with (N.to_nat t + N.to_nat (sum_N ts)) by lia.
        rewrite firstn_add_skipn. f_equal. f_equal.
        rewrite Hh1, Hb1, skipn_app. f_equal.
        -- rewrite <- (skipn_min_length (N.to_nat t) h). f_equal.
           unfold size. lia.
        -- f_equal. unfold size. lia.
    + cbn [write_completions map run]. unfold step. rewrite Hp. cbn [bind].
      rewrite Hh, Hb in *. cbn [size length N.of_nat] in Hsum.
      destruct (IH w Hw) as [w' [Hrun [Hh' [Hb' [Hwire' Hw']]]]].
      { rewrite Hh, Hb. cbn [size length N.of_nat]. lia. }
      exists w'. split; [exact Hrun|].
      rewrite Hh, Hb in *. rewrite Hh', Hb', Hwire'.
      rewrite !skipn_nil, !firstn_nil. auto.
Qed.

Lemma is_nil_length {A : Type} (l : list A) :
  is_nil l = true <-> length l = 0.
Proof. destruct l; simpl; split; congruence. Qed.

(** C5. While the request is written, after completions of partial writes
    of [t], [ts] bytes (never more than what was left) the header buffer
    has lost the first [min n |header|] bytes and the body buffer the first
    [n - |header|] bytes, [n] being the bytes taken in all: the offsets
    advance by exactly the bytes transferred, header first, and the body is
    untouched until the header buffer is empty.  The buffers that are not
    empty are offered again, the write goes on while bytes remain and the
    status line is read next once none does.  The socket has taken the
    first [n] bytes of header followed by body, so every header byte goes
    out before any body byte. *)
Theorem request_written_header_first (w : World) (t : N) (ts : list N) :
  pending w = Some K_OnWriteRequest ->
  concat (request_bufs_ (client w))
  = request_header_buf_ (client w) ++ request_body_buf_ (client w) ->
  (sum_N (t :: ts) <= size (request_header_buf_ (client w))
                      + size (request_body_buf_ (client w)))%N ->
  let h := request_header_buf_ (client w) in
  let b := request_body_buf_ (client w) in
  let n := sum_N (t :: ts) in
  exists w',
    run w (write_completions (t :: ts)) = Ok w'
    /\ request_header_buf_ (client w') = skipn (N.to_nat (N.min n (size h))) h
    /\ request_body_buf_ (client w') = skipn (N.to_nat (n - size h)) b
    /\ (request_body_buf_ (client w') <> b ->
        request_header_buf_ (client w') = [])
    /\ request_bufs_ (client w')
       = nonempty_bufs (request_header_buf_ (client w'))
           (request_body_buf_ (client w'))
    /\ pending w'
       = Some (if (n <? size h + size b)%N then K_OnWriteRequest
               else K_OnReadStatusLine)
    /\ wire_sent w' = wire_sent w ++ firstn (N.to_nat n) (h ++ b).
Proof.
  intros Hp Hbufs Hsum h b n.
  cbn [sum_N fold_right] in *. fold (sum_N ts) in *.
  destruct (OnWriteRequest_step w t Hbufs) as [Hh1 [Hb1 [Hwire Hw1]]].
  set (w1 := OnWriteRequest (socket_took t w) ec_success t) in *.
  fold h b in Hh1, Hb1, Hwire, Hsum.
  destruct (run_write_completions ts w1 Hw1) as [w' [Hrun [Hh' [Hb' [Hwire' Hw']]]]].
  { rewrite Hh1, Hb1. unfold size in *. rewrite !length_skipn. lia. }
  assert (Hh : request_header_buf_ (client w')
               = skipn (N.to_nat (N.min n (size h))) h).
  { rewrite Hh', Hh1, skipn_skipn. f_equal.
    subst n. unfold size. rewrite length_skipn. lia. }
  assert (Hb : request_body_buf_ (client w')
               = skipn (N.to_nat (n - size h)) b).
  { rewrite Hb', Hb1, Hh1, skipn_skipn. f_equal.
    subst n. unfold size. rewrite length_skipn. lia. }
  exists w'. split.
  { cbn [write_completions map run]. unfold step. rewrite Hp. cbn [bind].
    exact Hrun. }
  split; [exact Hh|]. split; [exact Hb|]. split; [|split; [|split]].
  - intros Hchanged. rewrite Hh.
    destruct (N.le_gt_cases n (size h)) as [Hle|Hgt].
    + exfalso. apply Hchanged. rewrite Hb.
      replace (N.to_nat (n - size h)) with 0 by lia. reflexivity.
    + apply skipn_all2. unfold size in *. lia.
  - apply Hw'.
  - destruct Hw' as [Hbufs' Hp']. rewrite Hp', Hbufs'. f_equal.
    assert (Hlen : length (request_header_buf_ (client w'))
                   + length (request_body_buf_ (client w'))
                   = length h + length b - N.to_nat n).
    { rewrite Hh, Hb, !length_skipn. unfold size in *. lia. }
    destruct (N.ltb_spec n (size h + size b)) as [Hlt|Hge].
    + destruct (is_nil (nonempty_bufs _ _)) eqn:Hnil; [|reflexivity].
      exfalso.
      destruct (request_header_buf_ (client w')),
        (request_body_buf_ (client w')); simpl in *; try discriminate.
      unfold size in *. lia.
    + destruct (request_header_buf_ (client w')),
        (request_body_buf_ (client w')); simpl in *;
        try reflexivity; unfold size in *; lia.
  - rewrite Hwire', Hwire, <- app_assoc. f_equal.
    replace (N.to_nat n) with (N.to_nat t + N.to_nat (sum_N ts))
      by (subst n; lia).
    rewrite firstn_add_skipn. f_equal. f_equal.
    rewrite Hh1, Hb1, skipn_app. f_equal.
    + rewrite <- (skipn_min_length (N.to_nat t) h). f_equal.
      unfold size. lia.
    + f_equal. unfold size. lia.
Qed.

Lemma request_written_header_first_witness :
  exists w',
    run sample_writing (write_completions [10; 0; 70; 18]%N) = Ok w'
    /\ request_header_buf_ (client w') = []
    /\ request_body_buf_ (client w') = str "lo"
    /\ pending w' = Some K_OnWriteRequest
    /\ wire_sent w'
       = str "POST /upload HTTP/1.1" ++ CRLF ++ str "Host: example.com" ++ CRLF
         ++ str "Connection: close" ++ CRLF ++ str "Accept: */*" ++ CRLF
         ++ str "Content-Length: 5" ++ CRLF ++ CRLF ++ str "hel".
Proof.
  destruct (request_written_header_first sample_writing 10 [0; 70; 18]%N)
    as [w' [Hrun [Hh [Hb [_ [_ [Hp Hwire]]]]]]].
  - reflexivity.
  - reflexivity.
  - vm_compute. discriminate.
  - exists w'. split; [exact Hrun|].
    split; [exact Hh|]. split; [exact Hb|]. split; [exact Hp|exact Hwire].
Defined.

(** ** Buffered body *)

Lemma known_app (a b : bytes) : known (a ++ b) = known a ++ known b.
Proof. apply map_app. Qed.

Lemma known_length (a : bytes) : length (known a) = length a.
Proof. apply length_map. Qed.

Lemma TransferBuffer_full (stream : bytes) (todo : N) :
  N.to_nat todo <= length stream ->
  firstn (N.to_nat todo)
    (TransferBuffer (firstn (N.to_nat todo) stream) todo)
  = known (firstn (N.to_nat todo) stream).
Proof.
  intros Hlen. unfold TransferBuffer.
  rewrite length_firstn, Nat.min_l, Nat.sub_diag by lia.
  simpl. rewrite app_nil_r.
  apply firstn_all2. rewrite known_length, length_firstn. lia.
Qed.

(** With room for every write the copy loop moves the whole stream into
    the VMO, after the [done] bytes [front] already there. *)
Lemma buffer_body_loop_roomy (replies : list sys_reply) (sz : N) :
  forall (done : N) (stream : bytes) (front back : list cell),
    forallb roomy replies = true ->
    (done < sz)%N ->
    length stream = N.to_nat (sz - done) ->
    length front = N.to_nat done ->
    length back = length stream ->
    (sz - done <= TransferBuffer_size * N.of_nat (length replies))%N ->
    exists rest,
      buffer_body_loop replies sz done stream (front ++ back)
      = Ok (MX_OK, [], front ++ known stream, rest).
Proof.
  assert (Hsize : TransferBuffer_size = 65536%N) by reflexivity.
  induction replies as [|r replies IH];
    intros done stream front back Hroom Hdone Hstream Hfront Hback Hfuel.
  - simpl in Hfuel. lia.
  - cbn [forallb] in Hroom. apply andb_true_iff in Hroom as [Hr Hroom].
    unfold roomy in Hr. apply andb_true_iff in Hr as [Hstatus Hr].
    apply N.leb_le in Hr.
    cbn [buffer_body_loop stream_read]. rewrite Hstatus. simpl negb. cbv iota.
    set (todo := N.min TransferBuffer_size (sz - done)).
    assert (Htodo : N.to_nat todo <= length stream) by (subst todo; lia).
    replace (N.min todo (reply_room r)) with todo by (subst todo; lia).
    rewrite (TransferBuffer_full stream todo Htodo).
    assert (Hwrite :
      vmo_write (front ++ back) done (known (firstn (N.to_nat todo) stream))
      = (front ++ known (firstn (N.to_nat todo) stream))
        ++ skipn (N.to_nat todo) back).
    { unfold vmo_write. rewrite <- Hfront.
      rewrite firstn_app, firstn_all, Nat.sub_diag. simpl firstn.
      rewrite app_nil_r, <- app_assoc. do 2 f_equal.
      rewrite skipn_app, known_length, length_firstn.
      rewrite skipn_all2 by lia. simpl. f_equal. lia. }
    rewrite Hwrite.
    destruct (N.ltb_spec (done + todo) sz) as [Hmore|Hend].
    + destruct (IH (done + todo)%N (skipn (N.to_nat todo) stream)
                  (front ++ known (firstn (N.to_nat todo) stream))
                  (skipn (N.to_nat todo) back)) as [rest Hrest]; auto.
      * rewrite length_skipn. lia.
      * rewrite length_app, known_length, length_firstn. lia.
      * rewrite !length_skipn. lia.
      * cbn [length] in Hfuel. subst todo. lia.
      * exists rest. rewrite Hrest. do 3 f_equal.
        rewrite <- app_assoc, <- known_app, firstn_skipn. reflexivity.
    + exists replies.
      assert (Hall : N.to_nat todo = length stream) by (subst todo; lia).
      rewrite Hall, firstn_all, !skipn_all2 by lia.
      rewrite app_nil_r. reflexivity.
Qed.

Lemma SendBufferedBody_ready (w : World) (r : URLResponse) :
  response_ (client w) = Some r ->
  vmo_ready (kernel w) (size (response_buf_ (client w))) = true ->
  exists w',
    SendBufferedBody w = Ok (MX_OK, w')
    /\ response_ (client w')
       = Some (buffered_response r (response_buf_ (client w)))
    /\ response_buf_ (client w') = []
    /\ loader_ w' = loader_ w.
Proof.
  intros Hr Hready. unfold vmo_ready in Hready.
  apply andb_true_iff in Hready as [Hready Hfuel].
  apply andb_true_iff in Hready as [Hcreate Hroom].
  apply N.leb_le in Hfuel.
  unfold SendBufferedBody, buffered_response.
  destruct (response_buf_ (client w)) as [|c buf] eqn:Hbuf.
  - exists w. simpl. rewrite Hbuf. auto.
  - set (stream := c :: buf) in *.
    replace (0 <? size stream)%N with true by reflexivity.
    rewrite Hcreate. simpl negb. cbv iota.
    assert (H1 : (0 < size stream)%N) by reflexivity.
    assert (H2 : length stream = N.to_nat (size stream - 0))
      by (unfold size; lia).
    assert (H3 : length (vmo_contents (vmo_create (size stream)))
                 = length stream).
    { cbn [vmo_contents vmo_create]. rewrite repeat_length. unfold size. lia. }
    assert (H4 : (size stream - 0
                  <= TransferBuffer_size
                     * N.of_nat (length (vmo_replies (kernel w))))%N)
      by (rewrite N.sub_0_r; exact Hfuel).
    destruct (buffer_body_loop_roomy (vmo_replies (kernel w)) (size stream)
                0%N stream [] (vmo_contents (vmo_create (size stream)))
                Hroom H1 H2 eq_refl H3 H4) as [rest Hrest].
    cbn [app] in Hrest. rewrite Hrest. cbn [bind].
    replace (negb (MX_OK =? MX_OK)%Z) with false by reflexivity. cbv iota.
    rewrite Hr. eexists. split; [reflexivity|].
    simpl. auto.
Qed.




(** ** Where the code departs from its description *)

(** C8. A header line without a colon, here [garbage] and its carriage
    return: [name_end] is [header.end()], the two searches for the value
    start at [name_end + 1], past the end of the string, and
    [ParseHeaderField] has no defined result; the value is not the empty
    string the rule promises. *)
Theorem ParseHeaderField_line_without_colon :
  ParseHeaderField (str "garbage" ++ [CR]) = Undefined.
Proof. reflexivity. Qed.

(** One iteration of the streamed copy whose write is answered
    [MX_ERR_SHOULD_WAIT] and whose wait succeeds: the loop goes round with
    the chunk gone from the stream and nothing added to what the body
    stream received. *)
Lemma stream_body_loop_should_wait (replies : list sys_reply) (sz done : N)
  (stream : bytes) (received : list cell) :
  (done < sz)%N ->
  stream_body_loop (write_should_wait MX_OK :: replies) sz done stream received
  = stream_body_loop replies sz done
      (skipn (N.to_nat (N.min TransferBuffer_size (sz - done))) stream)
      received.
Proof.
  intros Hdone. apply N.ltb_lt in Hdone.
  cbn [stream_body_loop stream_read].
  change (reply_status (write_should_wait MX_OK) =? MX_ERR_SHOULD_WAIT)%Z
    with true.
  change (reply_wait (write_should_wait MX_OK) =? MX_OK)%Z with true.
  cbv iota. rewrite Hdone. reflexivity.
Qed.

(** One iteration whose write is taken, whatever the wait field says. *)
Lemma stream_body_loop_write_ok_inv (room : N) (wait : mx_status_t)
  (replies : list sys_reply) (sz done : N) (stream : bytes)
  (received : list cell)
  (P : result (mx_status_t * bytes * list cell * list sys_reply) -> Prop) :
  (let todo := N.min TransferBuffer_size (sz - done) in
   let written := N.min todo room in
   let received' :=
     received
     ++ firstn (N.to_nat written)
          (TransferBuffer (firstn (N.to_nat todo) stream) todo) in
   P (if (done + written <? sz)%N
      then stream_body_loop replies sz (done + written)
             (skipn (N.to_nat todo) stream) received'
      else Ok (MX_OK, skipn (N.to_nat todo) stream, received', replies))) ->
  P (stream_body_loop
       ({| reply_status := MX_OK; reply_room := room; reply_wait := wait |}
        :: replies) sz done stream received).
Proof. intros H. exact H. Qed.

(** One iteration whose write is taken. *)
Lemma stream_body_loop_write_ok (room : N) (replies : list sys_reply)
  (sz done : N) (stream : bytes) (received : list cell) :
  let todo := N.min TransferBuffer_size (sz - done) in
  let written := N.min todo room in
  let received' :=
    received
    ++ firstn (N.to_nat written)
         (TransferBuffer (firstn (N.to_nat todo) stream) todo) in
  stream_body_loop (write_ok room :: replies) sz done stream received
  = if (done + written <? sz)%N
    then stream_body_loop replies sz (done + written)
           (skipn (N.to_nat todo) stream) received'
    else Ok (MX_OK, skipn (N.to_nat todo) stream, received', replies).
Proof. reflexivity. Qed.

(** A body of one full transfer buffer [chunk] and a shorter [tail], the
    first write refused and every later one taken in full: the body stream
    receives [tail] and then as many indeterminate bytes as a transfer
    buffer holds; [chunk] is lost. *)
Lemma stream_body_loop_retry (chunk tail : bytes) (received : list cell)
  (replies : list sys_reply) :
  length chunk = N.to_nat TransferBuffer_size ->
  0 < length tail <= N.to_nat TransferBuffer_size ->
  stream_body_loop
    (write_should_wait MX_OK :: write_ok 65536 :: write_ok 65536 :: replies)
    (size (chunk ++ tail)) 0 (chunk ++ tail) received
  = Ok (MX_OK, [],
        received ++ known tail
        ++ repeat None (N.to_nat TransferBuffer_size),
        replies).
Proof.
  intros Hchunk Htail.
  assert (Hsize : TransferBuffer_size = 65536%N) by reflexivity.
  set (k := N.of_nat (length tail)).
  assert (Hsz : size (chunk ++ tail) = (TransferBuffer_size + k)%N)
    by (unfold size; rewrite length_app; lia).
  rewrite Hsz.
  rewrite stream_body_loop_should_wait by lia.
  replace (N.min TransferBuffer_size (TransferBuffer_size + k - 0))
    with TransferBuffer_size by lia.
  rewrite skipn_app, Hchunk, skipn_all2, Nat.sub_diag by lia. cbn [app skipn].
  rewrite stream_body_loop_write_ok.
  replace (N.min TransferBuffer_size (TransferBuffer_size + k - 0))
    with TransferBuffer_size by lia.
  replace (N.min TransferBuffer_size 65536) with TransferBuffer_size by lia.
  replace (0 + TransferBuffer_size <? TransferBuffer_size + k)%N with true
    by (symmetry; apply N.ltb_lt; lia).
  rewrite stream_body_loop_write_ok.
  replace (N.min TransferBuffer_size
             (TransferBuffer_size + k - (0 + TransferBuffer_size)))
    with k by lia.
  replace (N.min k 65536) with k by lia.
  replace (0 + TransferBuffer_size + k <? TransferBuffer_size + k)%N
    with false by (symmetry; apply N.ltb_ge; lia).
  rewrite (firstn_all2 (n := N.to_nat TransferBuffer_size) tail) by lia.
  rewrite (skipn_all2 (n := N.to_nat TransferBuffer_size) tail) by lia.
  rewrite firstn_nil, skipn_nil.
  unfold TransferBuffer. cbn [known map app length].
  rewrite Nat.sub_0_r.
  rewrite (firstn_all2 (n := N.to_nat TransferBuffer_size)
             (known tail
              ++ repeat None (N.to_nat TransferBuffer_size - length tail)))
    by (rewrite length_app, known_length, repeat_length; lia).
  rewrite (firstn_all2 (n := N.to_nat k)) by (rewrite repeat_length; lia).
  repeat rewrite <- app_assoc. rewrite <- repeat_app.
  replace (N.to_nat TransferBuffer_size - length tail + N.to_nat k)
    with (N.to_nat TransferBuffer_size) by (subst k; lia).
  reflexivity.
Qed.

(** C1. A body of one full transfer buffer of the letter a followed by xyz;
    the first write to the body stream is answered [MX_ERR_SHOULD_WAIT],
    the wait succeeds and every later write is taken in full.  The retry
    reads the stream again: the body stream receives xyz and then bytes of
    the transfer buffer that were never read from the stream, and not one
    of the 65536 bytes of the chunk that was refused. *)
Theorem SendStreamedBody_retry_drops_chunk :
  delivered_to_stream
    (SendStreamedBody
       (sample_streaming two_chunk_body
          [write_should_wait MX_OK; write_ok 65536; write_ok 65536]))
  = Some (MX_OK,
          known (str "xyz") ++ repeat None (N.to_nat TransferBuffer_size)).
Proof.
  unfold SendStreamedBody.
  change (response_buf_ (client (sample_streaming two_chunk_body
            [write_should_wait MX_OK; write_ok 65536; write_ok 65536])))
    with two_chunk_body.
  change (stream_replies (kernel (sample_streaming two_chunk_body
            [write_should_wait MX_OK; write_ok 65536; write_ok 65536])))
    with [write_should_wait MX_OK; write_ok 65536; write_ok 65536].
  change (stream_received (kernel (sample_streaming two_chunk_body
            [write_should_wait MX_OK; write_ok 65536; write_ok 65536])))
    with (@nil cell).
  assert (Hpos : (0 <? size two_chunk_body)%N = true).
  { apply N.ltb_lt. unfold size, two_chunk_body.
    rewrite length_app, repeat_length. cbn [length str list_ascii_of_string].
    lia. }
  rewrite Hpos. unfold two_chunk_body.
  rewrite stream_body_loop_retry.
  - reflexivity.
  - apply repeat_length.
  - cbn [length str list_ascii_of_string].
    assert (Hsize : N.to_nat TransferBuffer_size = N.to_nat 65536)
      by reflexivity.
    lia.
Qed.

(** C2. The server closes the connection before any status line arrives:
    [OnReadStatusLine] only logs the error.  The run ends with nothing in
    flight and no call on the loader, neither [SendResponse] nor
    [SendError]. *)
Theorem read_error_reports_nothing :
  outcome
    (run (Start (sample_world nonssl_socket_t false
                   (sample_kernel MX_OK [] [])))
       closed_before_status_line)
  = Some ([], None).
Proof. reflexivity. Qed.

(** C3. Buffered mode over TLS, the body fully received, and the kernel
    refusing to create the VMO with [MX_ERR_NO_MEMORY]: [OnBufferBody]
    drops the status of [SendBufferedBody] and calls [SendResponse] with a
    response whose body holds no buffer; [SendError] is never called. *)
Theorem vmo_failure_still_sends_response :
  outcome
    (run (Start (sample_world ssl_socket_t true
                   (sample_kernel MX_ERR_NO_MEMORY [] [])))
       truncated_tls_exchange)
  = Some ([SendResponse (Some (sample_response body_unset))], None).
Proof. reflexivity. Qed.

(** ** Never more than one outcome *)

Lemma SendStreamedBody_frame (w w' : World) (status : mx_status_t) :
  SendStreamedBody w = Ok (status, w') ->
  loader_ w' = loader_ w /\ pending w' = pending w.
Proof.
  unfold SendStreamedBody.
  destruct (0 <? size (response_buf_ (client w)))%N.
  - destruct (stream_body_loop _ _ _ _ _) as [[[[st stream] received] rs]| |];
      cbn [bind]; try discriminate.
    intros H. injection H as _ <-. auto.
  - intros H. injection H as _ <-. auto.
Qed.

Lemma SendBufferedBody_frame (w w' : World) (status : mx_status_t) :
  SendBufferedBody w = Ok (status, w') ->
  loader_ w' = loader_ w /\ pending w' = pending w.
Proof.
  unfold SendBufferedBody.
  destruct (0 <? size (response_buf_ (client w)))%N.
  - destruct (negb (vmo_create_status (kernel w) =? MX_OK)%Z).
    + intros H. injection H as _ <-. auto.
    + destruct (buffer_body_loop _ _ _ _ _)
        as [[[[st stream] contents] rs]| |]; cbn [bind]; try discriminate.
      destruct (negb (st =? MX_OK)%Z).
      * intros H. injection H as _ <-. auto.
      * destruct (response_ (client w)); [|discriminate].
        intros H. injection H as _ <-. auto.
  - intros H. injection H as _ <-. auto.
Qed.

Lemma count_calls_call_loader (call : loader_call) (w : World) :
  count_calls (call_loader call w) = S (count_calls w).
Proof.
  unfold count_calls. cbn [call_loader loader_ loader_calls].
  rewrite length_app. simpl. lia.
Qed.

Lemma fail_with_bounded (code : net_error) (w : World) :
  count_calls w = 0 -> calls_bounded (fail_with code w).
Proof.
  intros H. right. split; [|left; reflexivity].
  unfold fail_with.
  change (count_calls (set_pending None (call_loader (SendError code) w)))
    with (count_calls (call_loader (SendError code) w)).
  rewrite count_calls_call_loader. lia.
Qed.

Lemma set_pending_bounded (p : option continuation) (w : World) :
  count_calls w = 0 -> calls_bounded (set_pending p w).
Proof. intros H. left. exact H. Qed.

Lemma OnReadHeaders_bounded (w w' : World) (err : error_code) :
  count_calls w = 0 -> OnReadHeaders w err = Ok w' -> calls_bounded w'.
Proof.
  intros Hzero. unfold OnReadHeaders.
  destruct (negb (is_error err));
    [|intros H; injection H as <-; left; exact Hzero].
  destruct (is_redirect (status_code_ (client w))).
  - destruct (headers_loop _ _ _ _) as [[s acc]| |]; cbn [bind];
      try discriminate.
    intros H; injection H as <-. left. exact Hzero.
  - destruct (headers_loop _ _ _ _) as [[s acc]| |]; cbn [bind];
      try discriminate.
    destruct (buffer_response_ (loader_ w)).
    { intros H; injection H as <-. left. exact Hzero. }
    destruct (negb (socket_create_status (kernel w) =? MX_OK)%Z).
    { intros H; injection H as <-. left. exact Hzero. }
    match goal with
    | |- context [SendStreamedBody ?x] => set (w1 := x)
    end.
    destruct (SendStreamedBody w1) as [[st w2]| |] eqn:Hs; cbn [bind];
      try discriminate.
    destruct (SendStreamedBody_frame w1 w2 st Hs) as [Hl _].
    assert (Hone : count_calls w2 = 1).
    { unfold count_calls. rewrite Hl. subst w1.
      unfold count_calls in Hzero.
      cbn [call_loader loader_ loader_calls set_client].
      rewrite length_app, Hzero. reflexivity. }
    cbn [fst snd].
    destruct (negb (st =? MX_OK)%Z); intros H; injection H as <-;
      right; (split; [exact Hone|]); [left|right]; reflexivity.
Qed.

Lemma OnStreamBody_bounded (w w' : World) (err : error_code) :
  count_calls w = 1 -> OnStreamBody w err = Ok w' -> calls_bounded w'.
Proof.
  intros Hone. unfold OnStreamBody.
  destruct (negb (is_error err)).
  - destruct (SendStreamedBody w) as [[st w2]| |] eqn:Hs; cbn [bind];
      try discriminate.
    destruct (SendStreamedBody_frame w w2 st Hs) as [Hl _].
    assert (Hone2 : count_calls w2 = 1)
      by (unfold count_calls in *; now rewrite Hl).
    cbn [fst snd].
    destruct (st =? MX_OK)%Z; intros H; injection H as <-;
      right; (split; [exact Hone2|]); [right|left]; reflexivity.
  - intros H; injection H as <-. right. split; [exact Hone|left; reflexivity].
Qed.

Lemma OnBufferBody_bounded (w w' : World) (err : error_code) :
  count_calls w = 0 -> OnBufferBody w err = Ok w' -> calls_bounded w'.
Proof.
  intros Hzero. unfold OnBufferBody.
  destruct (is_error err && negb (is_stream_truncated err)).
  - intros H; injection H as <-. now apply fail_with_bounded.
  - destruct (SendBufferedBody w) as [[st w2]| |] eqn:Hs; cbn [bind];
      try discriminate.
    destruct (SendBufferedBody_frame w w2 st Hs) as [Hl _].
    cbn [snd]. intros H; injection H as <-.
    right. split; [|left; reflexivity].
    unfold count_calls in *.
    cbn [set_pending call_loader loader_ loader_calls set_client].
    rewrite length_app, Hl, Hzero. reflexivity.
Qed.

Lemma step_bounded (w w' : World) (ev : completion) :
  calls_bounded w -> step w ev = Ok w' -> calls_bounded w'.
Proof.
  intros [Hzero|[Hone [Hp|Hp]]]; unfold step.
  - destruct (pending w) as [[]|]; destruct ev;
      try (intros H; injection H as <-; left; exact Hzero).
    + unfold OnResolve. intros H; injection H as <-.
      destruct (negb (is_error err));
        [now apply set_pending_bounded | now apply fail_with_bounded].
    + unfold OnConnect. intros H; injection H as <-.
      destruct (flavor w), (negb (is_error err));
        solve [now apply set_pending_bounded | now apply fail_with_bounded].
    + unfold OnHandShake. intros H; injection H as <-.
      destruct (negb (is_error err));
        [now apply set_pending_bounded | now apply fail_with_bounded].
    + unfold OnWriteRequest. intros H; injection H as <-.
      destruct (negb (is_error err)).
      * match goal with
        | |- context [if negb (is_nil ?bufs) then _ else _] =>
            destruct (negb (is_nil bufs))
        end; left; exact Hzero.
      * apply fail_with_bounded. exact Hzero.
    + unfold OnReadStatusLine. intros H; injection H as <-.
      destruct (negb (is_error err)); [|left; exact Hzero].
      destruct (extract_string _ _) as [s1 version].
      destruct (extract_unsigned _ _) as [s2 code].
      destruct (getline _ _) as [s3 message].
      destruct (is_fail s3 || _);
        [apply fail_with_bounded | left]; exact Hzero.
    + apply OnReadHeaders_bounded. exact Hzero.
    + apply OnBufferBody_bounded. exact Hzero.
    + intros H. destruct (OnStreamBody (socket_gave data w) err) eqn:Hs;
        try discriminate. injection H as <-.
      unfold OnStreamBody in Hs.
      destruct (negb (is_error err)).
      * destruct (SendStreamedBody _) as [[st w2]| |] eqn:Hsend;
          cbn [bind] in Hs; try discriminate.
        destruct (SendStreamedBody_frame _ _ _ Hsend) as [Hl _].
        cbn [fst snd] in Hs.
        destruct (st =? MX_OK)%Z; injection Hs as <-; left;
          unfold count_calls in *;
          cbn [set_pending set_client loader_]; rewrite Hl; exact Hzero.
      * injection Hs as <-. left. exact Hzero.
  - rewrite Hp. intros H; injection H as <-. right. auto.
  - rewrite Hp. destruct ev;
      try (intros H; injection H as <-; right; auto).
    apply OnStreamBody_bounded. exact Hone.
Qed.

(** X1. Whatever the completions and the replies of the kernel, a request
    whose loader has not been called yet makes at most one call on it,
    [SendResponse] or [SendError], over its whole run. *)
Theorem at_most_one_call (evs : list completion) :
  forall w w' : World,
    loader_calls (loader_ w) = [] ->
    run w evs = Ok w' ->
    count_calls w' <= 1.
Proof.
  assert (Hrun : forall w w', calls_bounded w -> run w evs = Ok w' ->
                              calls_bounded w').
  { induction evs as [|ev evs IH]; intros w w' Hb; cbn [run].
    - intros H; injection H as <-. exact Hb.
    - destruct (step w ev) as [w1| |] eqn:Hstep; cbn [bind]; try discriminate.
      apply IH. exact (step_bounded w w1 ev Hb Hstep). }
  intros w w' Hnone Hw.
  assert (Hb : calls_bounded w) by (left; unfold count_calls; now rewrite Hnone).
  destruct (Hrun w w' Hb Hw) as [H|[H _]]; lia.
Qed.

(** ** Streamed body without back-pressure *)

(** With room for every write the streamed copy hands the whole stream to
    the body stream, in order. *)
Lemma stream_body_loop_roomy (replies : list sys_reply) (sz : N) :
  forall (done : N) (stream : bytes) (received : list cell),
    forallb roomy replies = true ->
    (done < sz)%N ->
    length stream = N.to_nat (sz - done) ->
    (sz - done <= TransferBuffer_size * N.of_nat (length replies))%N ->
    exists rest,
      stream_body_loop replies sz done stream received
      = Ok (MX_OK, [], received ++ known stream, rest).
Proof.
  assert (Hsize : TransferBuffer_size = 65536%N) by reflexivity.
  induction replies as [|r replies IH];
    intros done stream received Hroom Hdone Hstream Hfuel.
  - simpl in Hfuel. lia.
  - cbn [forallb] in Hroom. apply andb_true_iff in Hroom as [Hr Hroom].
    unfold roomy in Hr. apply andb_true_iff in Hr as [Hstatus Hr].
    apply N.leb_le in Hr. apply Z.eqb_eq in Hstatus.
    destruct r as [status room wait]. cbn [reply_status reply_room] in *.
    subst status. apply stream_body_loop_write_ok_inv. cbv zeta.
    set (todo := N.min TransferBuffer_size (sz - done)).
    assert (Htodo : N.to_nat todo <= length stream) by (subst todo; lia).
    replace (N.min todo room) with todo by (subst todo; lia).
    rewrite (TransferBuffer_full stream todo Htodo).
    destruct (N.ltb_spec (done + todo) sz) as [Hmore|Hend].
    + destruct (IH (done + todo)%N (skipn (N.to_nat todo) stream)
                  (received ++ known (firstn (N.to_nat todo) stream)))
        as [rest Hrest]; auto.
      * rewrite length_skipn. lia.
      * cbn [length] in Hfuel. subst todo. lia.
      * exists rest. rewrite Hrest. do 3 f_equal.
        rewrite <- app_assoc, <- known_app, firstn_skipn. reflexivity.
    + exists replies.
      assert (Hall : N.to_nat todo = length stream) by (subst todo; lia).
      rewrite Hall, firstn_all, skipn_all2 by lia. reflexivity.
Qed.

Lemma SendStreamedBody_ready (w : World) :
  stream_ready (kernel w) (size (response_buf_ (client w))) = true ->
  exists w',
    SendStreamedBody w = Ok (MX_OK, w')
    /\ stream_received (kernel w')
       = stream_received (kernel w) ++ known (response_buf_ (client w))
    /\ response_buf_ (client w') = [].
Proof.
  intros Hready. unfold stream_ready in Hready.
  apply andb_true_iff in Hready as [Hroom Hfuel]. apply N.leb_le in Hfuel.
  unfold SendStreamedBody.
  destruct (response_buf_ (client w)) as [|c buf] eqn:Hbuf.
  - exists w. cbn [known map]. rewrite app_nil_r, Hbuf. auto.
  - set (stream := c :: buf) in *.
    replace (0 <? size stream)%N with true by reflexivity.
    assert (H1 : (0 < size stream)%N) by reflexivity.
    assert (H2 : length stream = N.to_nat (size stream - 0))
      by (unfold size; lia).
    assert (H3 : (size stream - 0
                  <= TransferBuffer_size
                     * N.of_nat (length (stream_replies (kernel w))))%N)
      by (rewrite N.sub_0_r; exact Hfuel).
    destruct (stream_body_loop_roomy (stream_replies (kernel w)) (size stream)
                0%N stream (stream_received (kernel w)) Hroom H1 H2 H3)
      as [rest Hrest].
    rewrite Hrest. cbn [bind]. eexists. split; [reflexivity|].
    split; reflexivity.
Qed.

(** ** Whole exchanges *)

Example redirect_exchange_outcome :
  redirect_outcome
    (run (Start (sample_world nonssl_socket_t false
                   (sample_kernel MX_OK [] [])))
       redirect_exchange)
  = Some (302%N, str "http://example.com/new", [], None).
Proof. reflexivity. Qed.

Example streamed_exchange_outcome :
  streamed_outcome
    (run (Start (sample_world nonssl_socket_t false
                   (sample_kernel MX_OK [write_ok 65536; write_ok 65536] [])))
       streamed_exchange)
  = Some ([SendResponse (Some (sample_response body_stream))],
          known (str "hello"), false).
Proof. reflexivity. Qed.

(** A failure between the status line and the headers is not reported
    either. *)
Example reset_before_headers_outcome :
  outcome
    (run (Start (sample_world nonssl_socket_t false
                   (sample_kernel MX_OK [] [])))
       reset_before_headers)
  = Some ([], None).
Proof. reflexivity. Qed.

(** Nor is a failure to create the socket pair of a streamed body. *)
Example socket_create_failure_outcome :
  outcome
    (OnReadHeaders
       (set_kernel
          {| socket_create_status := MX_ERR_NO_MEMORY; stream_replies := [];
             stream_received := []; vmo_create_status := MX_OK;
             vmo_replies := [] |}
          (world_with_response 200
             (str "Content-Length: 5" ++ CRLF ++ CRLF) (sample_kernel MX_OK [] [])))
       ec_success)
  = Some ([], None).
Proof. reflexivity. Qed.

(** In [OnBufferBody] the end of file that ends a body read over a plain
    socket is an error like any other. *)
Example buffered_body_eof_outcome :
  outcome
    (OnBufferBody
       (sample_buffering (str "hello") (sample_kernel MX_OK [] [write_ok 65536]))
       ec_eof)
  = Some ([SendError NETWORK_ERR_FAILED], None).
Proof. reflexivity. Qed.

(** A refused write of a body shorter than the transfer buffer: the retry
    finds the stream empty and writes a buffer it never filled. *)
Example short_body_retry :
  delivered_to_stream
    (SendStreamedBody
       (sample_streaming (str "abc") [write_should_wait MX_OK; write_ok 65536]))
  = Some (MX_OK, [None; None; None]).
Proof. reflexivity. Qed.

(** ** Header blocks with a line that holds no colon *)

Lemma headers_loop_malformed {A : Type} (body : bytes -> bytes -> A -> A)
  (fuel : nat) :
  forall (s : istream) (acc : A),
    is_fail s = false ->
    (is_eof s = true -> is_data s = []) ->
    length (is_data s) < fuel ->
    well_formed_block (header_block (is_data s)) = false ->
    headers_loop body fuel s acc = Undefined.
Proof.
  induction fuel as [|fuel IH]; intros s acc Hfail Heof Hlen Hbad; [lia|].
  destruct s as [d eof fail]; simpl in *. subst fail.
  unfold getline, good; simpl.
  destruct eof; simpl.
  - rewrite (Heof eq_refl) in Hbad. discriminate Hbad.
  - destruct d as [|c d]; [discriminate Hbad|].
    simpl is_nil. cbv iota.
    set (d0 := c :: d) in *.
    assert (Hd0 : d0 <> []) by (subst d0; congruence).
    unfold header_block in Hbad.
    rewrite (split_lines_cons d0 Hd0) in Hbad. cbn [before_blank] in Hbad.
    cbv beta iota zeta. simpl is_fail. simpl orb.
    destruct (bytes_eqb (line_of d0) [CR]) eqn:Hblank; [discriminate Hbad|].
    unfold well_formed_block in Hbad. cbn [forallb] in Hbad.
    destruct (has_colon (line_of d0)) eqn:Hcolon.
    + rewrite (ParseHeaderField_colon _ Hcolon). cbn [bind fst snd].
      apply IH; simpl; auto.
      * apply ends_without_LF_after_line.
      * pose proof (after_line_length d0 Hd0). subst d0. simpl in *. lia.
    + rewrite (ParseHeaderField_no_colon _ Hcolon). reflexivity.
Qed.

(** With such a line before the blank one, [OnReadHeaders] has no defined
    result, in the redirect branch as in the other. *)
Lemma OnReadHeaders_malformed_block (w : World) :
  well_formed_block (header_block (response_buf_ (client w))) = false ->
  OnReadHeaders w ec_success = Undefined.
Proof.
  intros Hbad. unfold OnReadHeaders. simpl negb. cbv iota.
  destruct (is_redirect (status_code_ (client w)));
    rewrite headers_loop_malformed; auto; simpl; auto; discriminate.
Qed.

(** C4. A 302 response with a line that holds no colon before its
    [Location] header.  The last header named [Location] gives
    http://example.com/new, but [ParseHeaderField] has no defined result on
    the line before it, so [OnReadHeaders] has none either and no redirect
    target is recorded. *)
Theorem redirect_after_line_without_colon :
  last_Location
    (header_block (response_buf_ (client sample_redirect_malformed)))
  = str "http://example.com/new"
  /\ OnReadHeaders sample_redirect_malformed ec_success = Undefined.
Proof. split; reflexivity. Qed.

(** ** Headers of other names in a redirect *)

(** What the redirect branch leaves, for every header block: the value of
    the last header named [Location] when each line holds a colon, no
    defined result otherwise. *)
Lemma redirect_outcome_total (w : World) :
  is_redirect (status_code_ (client w)) = true ->
  redirect_outcome (OnReadHeaders w ec_success)
  = if well_formed_block (header_block (response_buf_ (client w)))
    then Some (status_code_ (client w),
               last_Location (header_block (response_buf_ (client w))),
               loader_calls (loader_ w), None)
    else None.
Proof.
  intros Hcode.
  destruct (well_formed_block (header_block (response_buf_ (client w))))
    eqn:Hwf.
  - destruct (OnReadHeaders_redirect w Hcode Hwf) as [buf Hrun].
    rewrite Hrun. reflexivity.
  - rewrite (OnReadHeaders_malformed_block w Hwf). reflexivity.
Qed.

Lemma split_lines_unlines_app (ls : list bytes) (rest : bytes) :
  forallb free_of_LF ls = true ->
  split_lines (unlines ls ++ rest) = ls ++ split_lines rest.
Proof.
  induction ls as [|l ls IH]; intros H; [reflexivity|].
  cbn [forallb] in H. apply andb_true_iff in H as [Hl Hls].
  change (unlines (l :: ls)) with ((l ++ [LF]) ++ unlines ls).
  rewrite <- !app_assoc. cbn [app].
  rewrite split_lines_line by assumption. now rewrite IH.
Qed.

Lemma has_colon_not_blank (l : bytes) :
  has_colon l = true -> bytes_eqb l [CR] = false.
Proof.
  intros Hc. destruct (bytes_eqb l [CR]) eqn:Hb; [|reflexivity].
  apply bytes_eqb_eq in Hb. subst l. discriminate Hc.
Qed.

Lemma well_formed_block_insert (a c : list bytes) (l : bytes) :
  has_colon l = true ->
  well_formed_block (before_blank (a ++ l :: c))
  = well_formed_block (before_blank (a ++ c)).
Proof.
  intros Hc. pose proof (has_colon_not_blank l Hc) as Hb.
  induction a as [|x a IH]; cbn [app before_blank].
  - rewrite Hb. unfold well_formed_block. cbn [forallb]. now rewrite Hc.
  - destruct (bytes_eqb x [CR]); [reflexivity|].
    unfold well_formed_block in *. cbn [forallb]. now rewrite IH.
Qed.

Lemma filter_Location_insert (a c : list bytes) (l : bytes) :
  bytes_eqb l [CR] = false ->
  is_Location l = false ->
  filter is_Location (before_blank (a ++ l :: c))
  = filter is_Location (before_blank (a ++ c)).
Proof.
  intros Hb Hl.
  induction a as [|x a IH]; cbn [app before_blank].
  - rewrite Hb. cbn [filter]. now rewrite Hl.
  - destruct (bytes_eqb x [CR]); [reflexivity|].
    cbn [filter]. now rewrite IH.
Qed.

(** C9. In the redirect branch a header whose name is not, byte for byte,
    [Location] is ignored.  Put at any line boundary of any response
    buffer, a header line with such a name, [location] and [LOCATION] among
    them, changes nothing of what the handler leaves: the same redirect
    target, the same calls on the loader, or no defined result with it as
    without it.  And the target is read from the exact name only: whenever
    each line of the block holds a colon it is the value of the last header
    named [Location], and there is no defined result otherwise. *)
Theorem redirect_ignores_other_names (w : World) (before : list bytes)
  (line after : bytes) :
  status_code_ (client w) = 301%N \/ status_code_ (client w) = 302%N ->
  response_buf_ (client w) = unlines before ++ after ->
  forallb free_of_LF before = true ->
  free_of_LF line = true ->
  has_colon line = true ->
  is_Location line = false ->
  redirect_outcome
    (OnReadHeaders
       (with_response_buf (unlines before ++ line ++ LF :: after) w)
       ec_success)
  = redirect_outcome (OnReadHeaders w ec_success)
  /\ redirect_outcome (OnReadHeaders w ec_success)
     = if well_formed_block (header_block (response_buf_ (client w)))
       then Some (status_code_ (client w),
                  last_Location (header_block (response_buf_ (client w))),
                  loader_calls (loader_ w), None)
       else None.
Proof.
  intros Hcode Hbuf Hbefore Hline Hcolon Hname.
  apply is_redirect_spec in Hcode.
  split; [|apply redirect_outcome_total; exact Hcode].
  rewrite (redirect_outcome_total w Hcode).
  rewrite (redirect_outcome_total
             (with_response_buf (unlines before ++ line ++ LF :: after) w)
             Hcode).
  change (response_buf_
            (client (with_response_buf
                       (unlines before ++ line ++ LF :: after) w)))
    with (unlines before ++ line ++ LF :: after).
  change (status_code_
            (client (with_response_buf
                       (unlines before ++ line ++ LF :: after) w)))
    with (status_code_ (client w)).
  change (loader_calls
            (loader_ (with_response_buf
                        (unlines before ++ line ++ LF :: after) w)))
    with (loader_calls (loader_ w)).
  rewrite Hbuf. unfold header_block, last_Location.
  rewrite !split_lines_unlines_app by assumption.
  rewrite split_lines_line by assumption.
  rewrite well_formed_block_insert by assumption.
  rewrite filter_Location_insert
    by (auto using has_colon_not_blank).
  reflexivity.
Qed.

Lemma redirect_ignores_other_names_witness :
  redirect_outcome
    (OnReadHeaders
       (with_response_buf
          (unlines [str "Location: http://example.com/a" ++ [CR]]
           ++ (str "location: http://example.com/b" ++ [CR])
           ++ LF :: str "LOCATION: http://example.com/c" ++ CRLF ++ CRLF)
          sample_redirect_exact)
       ec_success)
  = Some (301%N, str "http://example.com/a", [], None).
Proof.
  destruct (redirect_ignores_other_names sample_redirect_exact
              [str "Location: http://example.com/a" ++ [CR]]
              (str "location: http://example.com/b" ++ [CR])
              (str "LOCATION: http://example.com/c" ++ CRLF ++ CRLF))
    as [Hsame _].
  - left. reflexivity.
  - reflexivity.
  - reflexivity.
  - reflexivity.
  - reflexivity.
  - reflexivity.
  - etransitivity; [exact Hsame|]. vm_compute. reflexivity.
Defined.

(** ** Side facts on the request builder *)

(** Equality regardless of case is equality of the lower-cased names. *)
Lemma EqualsCaseInsensitiveASCII_spec (v1 v2 : bytes) :
  EqualsCaseInsensitiveASCII v1 v2 = true
  <-> map ToLowerASCII v1 = map ToLowerASCII v2.
Proof.
  revert v2; induction v1 as [|x v1 IH]; intros [|y v2]; simpl;
    try (split; congruence).
  rewrite andb_true_iff, IH, Ascii.eqb_eq. split.
  - intros [-> ->]. reflexivity.
  - intros H. injection H as Hx Hv. auto.
Qed.

(** A request built in a fresh client offers its header buffer, then its
    body buffer: the state in which the write starts. *)
Lemma CreateRequest_offers_buffers (junk : N) (server path method : bytes)
  (hs : list (bytes * bytes)) (rs : list UploadElementReader)
  (c' : HTTPClient) :
  CreateRequest (HTTPClient_new junk) server path method hs rs = (MX_OK, c') ->
  request_bufs_ c' = [request_header_buf_ c'; request_body_buf_ c'].
Proof.
  unfold CreateRequest.
  destruct (negb (IsMethodAllowed method)); [discriminate|].
  destruct (write_extra_headers _ _ _) as [h has_accept].
  destruct (read_elements _ _) as [b result].
  destruct (negb (result =? MX_OK)%Z) eqn:Hr.
  - intros H. injection H as H _. apply negb_true_iff, Z.eqb_neq in Hr.
    congruence.
  - intros H. injection H as <-. reflexivity.
Qed.

(** * Further properties of the client *)

(** ** The run as a whole *)

Lemma at_most_one_call_witness :
  count_calls (final_world plain_start streamed_exchange) <= 1.
Proof.
  apply (at_most_one_call streamed_exchange plain_start
           (final_world plain_start streamed_exchange)).
  - reflexivity.
  - vm_compute. reflexivity.
Defined.

(** With nothing in flight every completion is ignored. *)
Lemma run_nothing_pending (evs : list completion) (w : World) :
  pending w = None -> run w evs = Ok w.
Proof.
  intros Hp. induction evs as [|ev evs IH]; [reflexivity|].
  cbn [run]. unfold step. rewrite Hp. cbn [bind]. exact IH.
Qed.

Lemma run_fail_with (code : net_error) (w : World) (evs : list completion) :
  outcome (run (fail_with code w) evs)
  = Some (loader_calls (loader_ w) ++ [SendError code], None).
Proof. rewrite run_nothing_pending; reflexivity. Qed.

(** X2. A failure while the connection is set up ends the request with one
    [SendError] of the kind of the stage, and nothing more happens whatever
    completes later: [NETWORK_ERR_NAME_NOT_RESOLVED] for the resolve,
    [NETWORK_ERR_CONNECTION_FAILED] for the connect on either kind of
    socket, [NETWORK_ERR_SSL_HANDSHAKE_NOT_COMPLETED] for the handshake of
    a TLS socket, and [NETWORK_ERR_FAILED] for the write of the request. *)
Theorem setup_failure_reports_its_kind (w : World) (err : error_code)
  (n : N) (later : list completion) :
  is_error err = true ->
  let calls := loader_calls (loader_ w) in
  outcome (run (Start w) (Resolved err :: later))
  = Some (calls ++ [SendError NETWORK_ERR_NAME_NOT_RESOLVED], None)
  /\ outcome (run (Start w) (Resolved ec_success :: Connected err :: later))
     = Some (calls ++ [SendError NETWORK_ERR_CONNECTION_FAILED], None)
  /\ (flavor w = ssl_socket_t ->
      outcome (run (Start w)
                 (Resolved ec_success :: Connected ec_success
                  :: HandShaken err :: later))
      = Some (calls ++ [SendError NETWORK_ERR_SSL_HANDSHAKE_NOT_COMPLETED],
              None)
      /\ outcome (run (Start w)
                    (Resolved ec_success :: Connected ec_success
                     :: HandShaken ec_success :: Written err n :: later))
         = Some (calls ++ [SendError NETWORK_ERR_FAILED], None))
  /\ (flavor w = nonssl_socket_t ->
      outcome (run (Start w)
                 (Resolved ec_success :: Connected ec_success
                  :: Written err n :: later))
      = Some (calls ++ [SendError NETWORK_ERR_FAILED], None)).
Proof.
  intros Herr calls. subst calls. unfold Start.
  assert (Hflavor : forall p w0, flavor (set_pending p w0) = flavor w0)
    by reflexivity.
  split; [|split; [|split]].
  - cbn [run step pending set_pending bind]. unfold OnResolve.
    rewrite Herr. cbn [negb]. rewrite run_fail_with. reflexivity.
  - cbn [run step pending set_pending bind OnResolve is_error negb].
    unfold OnConnect. rewrite !Hflavor, Herr.
    destruct (flavor w); cbn [negb]; rewrite run_fail_with; reflexivity.
  - intros Hssl. split.
    + cbn [run step pending set_pending bind OnResolve is_error negb].
      unfold OnConnect at 1. rewrite !Hflavor, Hssl. cbn [is_error negb].
      cbn [step pending set_pending bind].
      unfold OnHandShake. rewrite Herr. cbn [negb].
      rewrite run_fail_with. reflexivity.
    + cbn [run step pending set_pending bind OnResolve is_error negb].
      unfold OnConnect at 1. rewrite !Hflavor, Hssl. cbn [is_error negb].
      cbn [step pending set_pending bind OnHandShake is_error negb].
      unfold OnWriteRequest. rewrite Herr. cbn [negb].
      rewrite run_fail_with. reflexivity.
  - intros Hplain.
    cbn [run step pending set_pending bind OnResolve is_error negb].
    unfold OnConnect at 1. rewrite !Hflavor, Hplain. cbn [is_error negb].
    cbn [step pending set_pending bind].
    unfold OnWriteRequest. rewrite Herr. cbn [negb].
    rewrite run_fail_with. reflexivity.
Qed.

Lemma setup_failure_reports_its_kind_witness :
  outcome (run tls_start
             [Resolved ec_success; Connected ec_success;
              HandShaken (ec_other 1); ReadDone ec_success (str "HTTP/1.1")])
  = Some ([SendError NETWORK_ERR_SSL_HANDSHAKE_NOT_COMPLETED], None).
Proof.
  apply (setup_failure_reports_its_kind
           (sample_world ssl_socket_t false
              (sample_kernel MX_OK [write_ok 65536; write_ok 65536] []))
           (ec_other 1) 0 [ReadDone ec_success (str "HTTP/1.1")]).
  - reflexivity.
  - reflexivity.
Defined.

(** ** The handshake comes first *)

Lemma before_handshake_step (w w' : World) (ev : completion) :
  before_handshake w ->
  step w ev = Ok w' ->
  before_handshake w' \/ ev = HandShaken ec_success.
Proof.
  intros [Hssl [Hwire Hp]] Hstep. unfold step in Hstep.
  destruct Hp as [Hp|[Hp|[Hp|Hp]]]; rewrite Hp in Hstep.
  - injection Hstep as <-. left. repeat split; auto.
  - destruct ev; injection Hstep as <-;
      try (left; repeat split; auto; fail).
    left. unfold OnResolve, fail_with.
    destruct (negb (is_error err));
      (split; [exact Hssl|]; split; [exact Hwire|]); cbn; auto.
  - destruct ev; injection Hstep as <-;
      try (left; repeat split; auto; fail).
    left. unfold OnConnect, fail_with. rewrite Hssl.
    destruct (negb (is_error err));
      (split; [exact Hssl|]; split; [exact Hwire|]); cbn; auto.
  - destruct ev; injection Hstep as <-;
      try (left; repeat split; auto; fail).
    destruct err; try (right; reflexivity);
      left; (split; [exact Hssl|]; split; [exact Hwire|]); cbn; auto.
Qed.

(** X3. On a TLS socket no byte of the request reaches the socket before
    the handshake has succeeded: in a run from [Start], whatever completes
    and in whatever order, bytes taken by the socket imply an earlier
    handshake completion without error. *)
Theorem tls_request_follows_handshake (evs : list completion)
  (w w' : World) :
  flavor w = ssl_socket_t ->
  wire_sent w = [] ->
  run (Start w) evs = Ok w' ->
  wire_sent w' <> [] ->
  In (HandShaken ec_success) evs.
Proof.
  intros Hssl Hwire Hrun Hsent.
  assert (Hgen : forall evs w0 w1,
             before_handshake w0 -> run w0 evs = Ok w1 ->
             before_handshake w1 \/ In (HandShaken ec_success) evs).
  { clear. induction evs as [|ev evs IH]; intros w0 w1 Hb; cbn [run].
    - intros H; injection H as <-. left. exact Hb.
    - destruct (step w0 ev) as [w2| |] eqn:Hstep; cbn [bind];
        try discriminate.
      intros Hrest.
      destruct (before_handshake_step w0 w2 ev Hb Hstep) as [Hb2 | ->].
      + destruct (IH w2 w1 Hb2 Hrest) as [H|H]; [left; exact H|].
        right. right. exact H.
      + right. left. reflexivity. }
  destruct (Hgen evs (Start w) w') as [[_ [Hnone _]]|Hin]; auto.
  - repeat split; auto.
  - contradiction.
Qed.

Lemma tls_request_follows_handshake_witness :
  In (HandShaken ec_success) tls_request_start.
Proof.
  apply (tls_request_follows_handshake tls_request_start
           (sample_world ssl_socket_t false
              (sample_kernel MX_OK [write_ok 65536; write_ok 65536] []))
           (final_world tls_start tls_request_start)).
  - reflexivity.
  - reflexivity.
  - vm_compute. reflexivity.
  - vm_compute. discriminate.
Defined.

(** ** The status line *)

Lemma isdigit_not_isspace (c : ascii) : isdigit c = true -> isspace c = false.
Proof.
  destruct c as [[] [] [] [] [] [] [] []]; vm_compute; congruence.
Qed.

Lemma isdigit_not_sign (c : ascii) : isdigit c = true -> is_sign c = false.
Proof.
  destruct c as [[] [] [] [] [] [] [] []]; vm_compute; congruence.
Qed.

Lemma is_token_cons (s : bytes) :
  is_token s = true ->
  exists c s', s = c :: s' /\ isspace c = false
               /\ forallb (fun c => negb (isspace c)) s = true.
Proof.
  unfold is_token. destruct s as [|c s]; [discriminate|]. simpl.
  intros H. apply andb_true_iff in H as [Hc Hs].
  exists c, s. rewrite Hc, Hs. apply negb_true_iff in Hc. auto.
Qed.

(** The first extraction takes a leading token whole. *)
Lemma extract_string_token (version rest old : bytes) :
  is_token version = true ->
  is_nil rest || starts_with isspace rest = true ->
  extract_string (istream_on (version ++ rest)) old
  = ({| is_data := rest; is_eof := is_nil rest; is_fail := false |}, version).
Proof.
  intros Htok Hrest.
  destruct (is_token_cons version Htok) as [c [v [-> [Hc Hall]]]].
  unfold extract_string, sentry_skipws, istream_on, good. cbn [is_eof is_fail
    orb negb is_data app skip_while]. rewrite Hc. cbn [is_nil is_data].
  change (c :: v ++ rest) with ((c :: v) ++ rest).
  destruct rest as [|r rest].
  - rewrite app_nil_r, take_while_all, skip_while_all by assumption.
    reflexivity.
  - cbn [is_nil starts_with orb] in Hrest.
    rewrite take_while_app_stop, skip_while_app_stop
      by (try assumption; now rewrite Hrest).
    reflexivity.
Qed.

(** The second extraction takes the digits after the space. *)
Lemma extract_unsigned_digits (digits tail : bytes) (old : N) :
  negb (is_nil digits) = true ->
  forallb isdigit digits = true ->
  negb (is_nil tail) = true ->
  starts_with isdigit tail = false ->
  extract_unsigned
    {| is_data := SP :: digits ++ tail; is_eof := false; is_fail := false |}
    old
  = if (UINT_MAX <? decimal_value digits)%N
    then ({| is_data := tail; is_eof := false; is_fail := true |}, UINT_MAX)
    else ({| is_data := tail; is_eof := false; is_fail := false |},
          decimal_value digits).
Proof.
  intros Hne Hdigits Htail Hstop.
  destruct digits as [|d digits]; [discriminate|].
  destruct tail as [|t tail]; [discriminate|].
  cbn [forallb] in Hdigits. apply andb_true_iff in Hdigits as [Hd Hds].
  cbn [starts_with] in Hstop.
  unfold extract_unsigned, sentry_skipws, good.
  cbn [is_eof is_fail orb negb is_data].
  change (skip_while isspace (SP :: (d :: digits) ++ t :: tail))
    with (skip_while isspace ((d :: digits) ++ t :: tail)).
  cbn [app skip_while]. rewrite (isdigit_not_isspace d Hd).
  cbn [is_nil is_data].
  pose proof (isdigit_not_sign d Hd) as Hsign. unfold is_sign in Hsign.
  rewrite Hsign. cbn [length skipn].
  change (d :: digits ++ t :: tail) with ((d :: digits) ++ t :: tail).
  assert (Hall : forallb isdigit (d :: digits) = true)
    by (cbn [forallb]; now rewrite Hd, Hds).
  rewrite take_while_app_stop, skip_while_app_stop by assumption.
  cbn [is_nil orb bytes_eqb].
  destruct (UINT_MAX <? decimal_value (d :: digits))%N; reflexivity.
Qed.

Lemma getline_line (line rest old : bytes) :
  forallb (fun c => negb (Ascii.eqb c LF)) line = true ->
  getline {| is_data := line ++ LF :: rest; is_eof := false;
             is_fail := false |} old
  = ({| is_data := rest; is_eof := false; is_fail := false |}, line).
Proof.
  intros Hline. unfold getline, good. cbn [is_eof is_fail orb negb is_data].
  unfold after_line, ends_without_LF, line_of.
  rewrite take_while_app_stop, skip_while_app_stop by (auto; reflexivity).
  destruct line; reflexivity.
Qed.

(** [getline] on a stream that has failed fails. *)
Lemma getline_failed (s : istream) (old : bytes) :
  is_fail s = true -> is_fail (fst (getline s old)) = true.
Proof.
  intros Hfail. unfold getline, good. rewrite Hfail, orb_true_r. reflexivity.
Qed.

(** X4. A status line [version SP digits reason LF] whose version begins
    with HTTP/ and whose digits fit an [unsigned int] is taken whatever the
    number, 404 and 500 like 200: the version, the number and the reason
    (all that follows the digits, up to the line feed) are recorded, what
    follows the line stays in the response buffer, the headers are read
    next and the loader is not called. *)
Theorem status_line_parsed (w : World) (version digits reason rest : bytes) :
  response_buf_ (client w) = version ++ SP :: digits ++ reason ++ LF :: rest ->
  status_line_ok version digits reason = true ->
  let w' := OnReadStatusLine w ec_success in
  http_version_ (client w') = version
  /\ status_code_ (client w') = decimal_value digits
  /\ status_message_ (client w') = reason
  /\ response_buf_ (client w') = rest
  /\ pending w' = Some K_OnReadHeaders
  /\ loader_ w' = loader_ w.
Proof.
  intros Hbuf Hok w'. subst w'. unfold status_line_ok in Hok.
  repeat (apply andb_true_iff in Hok as [Hok ?]).
  rename Hok into Hprefix.
  match goal with H : (_ <=? _)%N = true |- _ => apply N.leb_le in H end.
  unfold OnReadStatusLine. cbn [is_error negb]. rewrite Hbuf.
  rewrite extract_string_token by (auto; reflexivity).
  cbn [is_nil].
  rewrite (extract_unsigned_digits digits (reason ++ LF :: rest)); auto.
  - replace (UINT_MAX <? decimal_value digits)%N with false
      by (symmetry; apply N.ltb_ge; assumption).
    rewrite getline_line by assumption.
    cbn [is_fail orb]. rewrite Hprefix. cbn [negb]. repeat split; reflexivity.
  - destruct reason; reflexivity.
  - destruct reason as [|c reason]; [reflexivity|].
    cbn [starts_with app] in *. now apply negb_true_iff.
Qed.

Lemma status_line_parsed_witness :
  let w' := OnReadStatusLine
              (world_reading_status
                 (str "HTTP/1.1 404 Not Found" ++ CRLF ++ str "Server: x"))
              ec_success in
  http_version_ (client w') = str "HTTP/1.1"
  /\ status_code_ (client w') = 404%N
  /\ status_message_ (client w') = str " Not Found" ++ [CR]
  /\ response_buf_ (client w') = str "Server: x"
  /\ pending w' = Some K_OnReadHeaders
  /\ loader_ w' = loader_ (world_reading_status
                             (str "HTTP/1.1 404 Not Found" ++ CRLF
                              ++ str "Server: x")).
Proof.
  apply (status_line_parsed
           (world_reading_status
              (str "HTTP/1.1 404 Not Found" ++ CRLF ++ str "Server: x"))
           (str "HTTP/1.1") (str "404") (str " Not Found" ++ [CR])
           (str "Server: x")).
  - reflexivity.
  - reflexivity.
Defined.

(** X5. A status line whose first token does not begin with HTTP/ is
    rejected with [NETWORK_ERR_INVALID_RESPONSE], whatever follows the
    token, a valid status code included; nothing is left in flight. *)
Theorem status_line_bad_version (w : World) (version rest : bytes) :
  response_buf_ (client w) = version ++ rest ->
  is_token version = true ->
  is_nil rest || starts_with isspace rest = true ->
  bytes_eqb (firstn 5 version) (str "HTTP/") = false ->
  rejected_as_invalid w (OnReadStatusLine w ec_success).
Proof.
  intros Hbuf Htok Hrest Hprefix.
  unfold OnReadStatusLine. cbn [is_error negb]. rewrite Hbuf.
  rewrite extract_string_token by assumption.
  destruct (extract_unsigned _ _) as [s2 code].
  destruct (getline _ _) as [s3 message].
  rewrite Hprefix. cbn [negb]. rewrite orb_true_r.
  split; reflexivity.
Qed.

Lemma status_line_bad_version_witness :
  rejected_as_invalid
    (world_reading_status (str "ICY 200 OK" ++ CRLF))
    (OnReadStatusLine (world_reading_status (str "ICY 200 OK" ++ CRLF))
       ec_success).
Proof.
  apply (status_line_bad_version
           (world_reading_status (str "ICY 200 OK" ++ CRLF))
           (str "ICY") (str " 200 OK" ++ CRLF)); reflexivity.
Defined.

(** X6. A status line whose version is followed by something that does not
    start, after white space, with a digit or a sign is rejected with
    [NETWORK_ERR_INVALID_RESPONSE], although its version may be right. *)
Theorem status_line_bad_code (w : World) (version rest : bytes) :
  response_buf_ (client w) = version ++ SP :: rest ->
  is_token version = true ->
  starts_with (fun c => isdigit c || is_sign c) (skip_while isspace rest)
  = false ->
  rejected_as_invalid w (OnReadStatusLine w ec_success).
Proof.
  intros Hbuf Htok Hcode.
  unfold OnReadStatusLine. cbn [is_error negb]. rewrite Hbuf.
  rewrite extract_string_token by (auto; reflexivity).
  cbn [is_nil].
  assert (Hfail : is_fail (fst (extract_unsigned
                    {| is_data := SP :: rest; is_eof := false;
                       is_fail := false |} (status_code_ (client w))))
                  = true).
  { unfold extract_unsigned, sentry_skipws, good.
    cbn [is_eof is_fail orb negb is_data].
    change (skip_while isspace (SP :: rest)) with (skip_while isspace rest).
    destruct (skip_while isspace rest) as [|c j]; [reflexivity|].
    cbn [is_nil is_data starts_with] in *.
    apply orb_false_iff in Hcode as [Hdigit Hsign].
    unfold is_sign in Hsign. rewrite Hsign. cbn [length skipn take_while].
    rewrite Hdigit. reflexivity. }
  destruct (extract_unsigned _ _) as [s2 code]. cbn [fst] in Hfail.
  pose proof (getline_failed s2 (status_message_ (client w)) Hfail) as Hline.
  destruct (getline _ _) as [s3 message]. cbn [fst] in Hline.
  rewrite Hline. cbn [orb]. split; reflexivity.
Qed.

Lemma status_line_bad_code_witness :
  rejected_as_invalid
    (world_reading_status (str "HTTP/1.1 OK 200" ++ CRLF))
    (OnReadStatusLine (world_reading_status (str "HTTP/1.1 OK 200" ++ CRLF))
       ec_success).
Proof.
  apply (status_line_bad_code
           (world_reading_status (str "HTTP/1.1 OK 200" ++ CRLF))
           (str "HTTP/1.1") (str "OK 200" ++ CRLF)); reflexivity.
Defined.

(** ** The headers of a response that is delivered *)

Lemma after_line_skipn (d : bytes) :
  after_line d = skipn (S (length (line_of d))) d.
Proof.
  unfold after_line, line_of.
  induction d as [|c d IH]; [reflexivity|]. simpl.
  destruct (Ascii.eqb c LF); simpl; [reflexivity|]. exact IH.
Qed.

(** The loop leaves in the stream what follows the header block. *)
Lemma headers_loop_rest {A : Type} (body : bytes -> bytes -> A -> A)
  (fuel : nat) :
  forall (s : istream) (acc : A),
    is_fail s = false ->
    (is_eof s = true -> is_data s = []) ->
    length (is_data s) < fuel ->
    well_formed_block (header_block (is_data s)) = true ->
    exists s',
      headers_loop body fuel s acc
      = Ok (s', fold_headers body (header_block (is_data s)) acc)
      /\ is_data s' = after_header_block (is_data s).
Proof.
  induction fuel as [|fuel IH]; intros s acc Hfail Heof Hlen Hwf; [lia|].
  destruct s as [d eof fail]; simpl in *. subst fail.
  unfold getline, good; simpl.
  destruct eof; simpl.
  - rewrite (Heof eq_refl). eexists; split; reflexivity.
  - destruct d as [|c d]; simpl is_nil; cbv iota.
    + eexists; split; reflexivity.
    + set (d0 := c :: d) in *.
      assert (Hd0 : d0 <> []) by (subst d0; congruence).
      unfold header_block, after_header_block in *.
      rewrite (split_lines_cons d0 Hd0) in *.
      cbn [before_blank block_length] in *.
      cbv beta iota zeta. simpl is_fail. simpl orb.
      destruct (bytes_eqb (line_of d0) [CR]) eqn:Hblank.
      * eexists; split; [reflexivity|]. cbn [is_data].
        rewrite after_line_skipn.
        apply bytes_eqb_eq in Hblank. rewrite Hblank. reflexivity.
      * unfold well_formed_block in Hwf. cbn [forallb] in Hwf.
        apply andb_true_iff in Hwf as [Hcolon Hrest].
        rewrite (ParseHeaderField_colon _ Hcolon). simpl bind.
        pose proof (after_line_length d0 Hd0) as Hshort.
        destruct (IH {| is_data := after_line d0;
                        is_eof := ends_without_LF d0; is_fail := false |}
                    (body (field_name (line_of d0))
                       (field_value (line_of d0)) acc))
          as [s' [Hs' Hdata]]; simpl; auto.
        -- apply ends_without_LF_after_line.
        -- subst d0; simpl in *; lia.
        -- exists s'. simpl in Hs', Hdata. rewrite Hs'.
           split; [reflexivity|]. rewrite Hdata.
           set (rest_length := block_length (split_lines (after_line d0))).
           rewrite (after_line_skipn d0), skipn_skipn.
           replace (rest_length + S (length (line_of d0)))
             with (S (length (line_of d0) + rest_length)) by lia.
           reflexivity.
Qed.

Lemma fold_response_body (block : list bytes) (acc : list (bytes * bytes)) :
  fold_headers response_body block acc = acc ++ parsed_headers block.
Proof.
  revert acc; induction block as [|l block IH]; intros acc.
  - simpl. now rewrite app_nil_r.
  - unfold fold_headers in *. simpl. rewrite IH. unfold response_body.
    now rewrite <- app_assoc.
Qed.

(** What [SendStreamedBody] may change: the response buffer and the body
    stream. *)
Lemma SendStreamedBody_shape (w w' : World) (status : mx_status_t) :
  SendStreamedBody w = Ok (status, w') ->
  exists stream received replies,
    w' = set_kernel (set_stream replies received (kernel w))
           (set_client (set_response_buf_ stream (client w)) w)
    \/ w' = w.
Proof.
  unfold SendStreamedBody.
  destruct (0 <? size (response_buf_ (client w)))%N.
  - destruct (stream_body_loop _ _ _ _ _) as [[[[st stream] received] rs]| |];
      cbn [bind]; try discriminate.
    intros H. injection H as _ <-. exists stream, received, rs. left.
    reflexivity.
  - intros H. injection H as _ <-. exists [], [], []. right. reflexivity.
Qed.

(** X7. In buffered mode [OnReadHeaders], for a status other than 301 and
    302 and a header block whose lines each hold a colon, makes the
    response of the status line the client holds and of the headers of the
    block, one for each line, in order, duplicates kept, with no body yet;
    it keeps it, leaves in the buffer what follows the blank line, starts
    the read of the body and does not call the loader. *)
Theorem headers_collected_buffered (w : World) :
  is_redirect (status_code_ (client w)) = false ->
  well_formed_block (header_block (response_buf_ (client w))) = true ->
  buffer_response_ (loader_ w) = true ->
  exists w',
    OnReadHeaders w ec_success = Ok w'
    /\ response_ (client w')
       = Some (envelope w (header_block (response_buf_ (client w)))
                 body_unset)
    /\ response_buf_ (client w') = after_header_block (response_buf_ (client w))
    /\ pending w' = Some K_OnBufferBody
    /\ loader_ w' = loader_ w.
Proof.
  intros Hcode Hwf Hbuffered. unfold OnReadHeaders. cbn [is_error negb].
  rewrite Hcode.
  assert (Hloop := headers_loop_rest response_body
                     (S (length (response_buf_ (client w))))
                     (istream_on (response_buf_ (client w))) [] eq_refl
                     (fun H => False_ind _ (Bool.diff_false_true H))
                     (Nat.lt_succ_diag_r _) Hwf).
  destruct Hloop as [s' [Hs' Hdata]]. cbn [is_data istream_on] in Hs', Hdata.
  rewrite Hs'. cbn [bind fst snd]. rewrite Hbuffered.
  eexists. split; [reflexivity|].
  rewrite fold_response_body, Hdata. repeat split; reflexivity.
Qed.

Lemma headers_collected_buffered_witness :
  exists w',
    OnReadHeaders (world_reading_headers true) ec_success = Ok w'
    /\ response_ (client w')
       = Some {| status_code := 200;
                 status_line := str "HTTP/1.1 200 OK" ++ [CR];
                 url := str "http://example.com/index.html";
                 headers := [(str "Content-Length", str "5");
                             (str "Set-Cookie", str "a=1");
                             (str "Set-Cookie", str "b=2")];
                 body := body_unset |}
    /\ response_buf_ (client w') = str "hel"
    /\ pending w' = Some K_OnBufferBody
    /\ loader_ w' = loader_ (world_reading_headers true).
Proof.
  apply (headers_collected_buffered (world_reading_headers true));
    reflexivity.
Defined.

(** X8. In streamed mode, the socket pair created and the body stream
    taking every write, [OnReadHeaders] calls [SendResponse] once, with the
    response of the status line and headers and the consumer end as its
    body, then hands to the body stream the bytes that follow the blank
    line in the buffer, in order, empties the buffer, keeps the producer
    end and starts the next read of the body. *)
Theorem headers_then_stream (w : World) :
  is_redirect (status_code_ (client w)) = false ->
  well_formed_block (header_block (response_buf_ (client w))) = true ->
  buffer_response_ (loader_ w) = false ->
  socket_create_status (kernel w) = MX_OK ->
  stream_ready (kernel w)
    (size (after_header_block (response_buf_ (client w)))) = true ->
  exists w',
    OnReadHeaders w ec_success = Ok w'
    /\ loader_calls (loader_ w')
       = loader_calls (loader_ w)
         ++ [SendResponse
               (Some (envelope w (header_block (response_buf_ (client w)))
                        body_stream))]
    /\ stream_received (kernel w')
       = stream_received (kernel w)
         ++ known (after_header_block (response_buf_ (client w)))
    /\ response_buf_ (client w') = []
    /\ response_body_stream_ (client w') = true
    /\ pending w' = Some K_OnStreamBody.
Proof.
  intros Hcode Hwf Hstreamed Hsocket Hready.
  unfold OnReadHeaders. cbn [is_error negb]. rewrite Hcode.
  assert (Hloop := headers_loop_rest response_body
                     (S (length (response_buf_ (client w))))
                     (istream_on (response_buf_ (client w))) [] eq_refl
                     (fun H => False_ind _ (Bool.diff_false_true H))
                     (Nat.lt_succ_diag_r _) Hwf).
  destruct Hloop as [s' [Hs' Hdata]]. cbn [is_data istream_on] in Hs', Hdata.
  rewrite Hs'. cbn [bind fst snd]. rewrite Hstreamed, Hsocket.
  replace (negb (MX_OK =? MX_OK)%Z) with false by reflexivity. cbv iota.
  rewrite fold_response_body, Hdata. cbn [app].
  match goal with
  | |- context [SendStreamedBody ?x] => set (w1 := x)
  end.
  destruct (SendStreamedBody_ready w1) as [w2 [Hsend [Hreceived Hbuf]]].
  { exact Hready. }
  rewrite Hsend. cbn [bind fst snd].
  replace (negb (MX_OK =? MX_OK)%Z) with false by reflexivity. cbv iota.
  eexists. split; [reflexivity|].
  destruct (SendStreamedBody_frame w1 w2 MX_OK Hsend) as [Hloader _].
  destruct (SendStreamedBody_shape w1 w2 MX_OK Hsend)
    as [stream [received [replies Hshape]]].
  cbn [pending set_pending loader_ kernel client].
  rewrite Hloader, Hreceived, Hbuf.
  repeat split; try reflexivity.
  destruct Hshape as [-> | ->]; reflexivity.
Qed.

Lemma headers_then_stream_witness :
  exists w',
    OnReadHeaders (world_reading_headers false) ec_success = Ok w'
    /\ loader_calls (loader_ w')
       = [SendResponse
            (Some {| status_code := 200;
                     status_line := str "HTTP/1.1 200 OK" ++ [CR];
                     url := str "http://example.com/index.html";
                     headers := [(str "Content-Length", str "5");
                                 (str "Set-Cookie", str "a=1");
                                 (str "Set-Cookie", str "b=2")];
                     body := body_stream |})]
    /\ stream_received (kernel w') = known (str "hel")
    /\ response_buf_ (client w') = []
    /\ response_body_stream_ (client w') = true
    /\ pending w' = Some K_OnStreamBody.
Proof.
  apply (headers_then_stream (world_reading_headers false)); reflexivity.
Defined.

(** ** The streamed body as it arrives *)

Lemma forallb_skipn {A : Type} (p : A -> bool) (k : nat) (l : list A) :
  forallb p l = true -> forallb p (skipn k l) = true.
Proof.
  revert l; induction k as [|k IH]; intros [|x l] H; auto.
  simpl in *. apply andb_true_iff in H as [_ H]. auto.
Qed.

(** The streamed copy with room for every write, and the replies it
    uses. *)
Lemma stream_body_loop_roomy_rest (replies : list sys_reply) (sz : N) :
  forall (done : N) (stream : bytes) (received : list cell),
    forallb roomy replies = true ->
    (done < sz)%N ->
    length stream = N.to_nat (sz - done) ->
    (sz - done <= TransferBuffer_size * N.of_nat (length replies))%N ->
    exists k,
      (TransferBuffer_size * N.of_nat k < sz - done + TransferBuffer_size)%N
      /\ stream_body_loop replies sz done stream received
         = Ok (MX_OK, [], received ++ known stream, skipn k replies).
Proof.
  assert (Hsize : TransferBuffer_size = 65536%N) by reflexivity.
  induction replies as [|r replies IH];
    intros done stream received Hroom Hdone Hstream Hfuel.
  - simpl in Hfuel. lia.
  - cbn [forallb] in Hroom. apply andb_true_iff in Hroom as [Hr Hroom].
    unfold roomy in Hr. apply andb_true_iff in Hr as [Hstatus Hr].
    apply N.leb_le in Hr. apply Z.eqb_eq in Hstatus.
    destruct r as [status room wait]. cbn [reply_status reply_room] in *.
    subst status. apply stream_body_loop_write_ok_inv. cbv zeta.
    set (todo := N.min TransferBuffer_size (sz - done)).
    assert (Htodo : N.to_nat todo <= length stream) by (subst todo; lia).
    replace (N.min todo room) with todo by (subst todo; lia).
    rewrite (TransferBuffer_full stream todo Htodo).
    destruct (N.ltb_spec (done + todo) sz) as [Hmore|Hend].
    + destruct (IH (done + todo)%N (skipn (N.to_nat todo) stream)
                  (received ++ known (firstn (N.to_nat todo) stream)))
        as [k [Hk Hrest]]; auto.
      * rewrite length_skipn. lia.
      * cbn [length] in Hfuel. subst todo. lia.
      * exists (S k). split; [subst todo; lia|].
        cbn [skipn]. rewrite Hrest. do 3 f_equal.
        rewrite <- app_assoc, <- known_app, firstn_skipn. reflexivity.
    + exists 1. split; [lia|].
      assert (Hall : N.to_nat todo = length stream) by (subst todo; lia).
      rewrite Hall, firstn_all, skipn_all2 by lia. reflexivity.
Qed.

Lemma writes_for_enough (n : N) (k : nat) :
  (TransferBuffer_size * N.of_nat k < n + TransferBuffer_size)%N ->
  k <= writes_for n.
Proof.
  intros Hk. unfold writes_for.
  assert (Hsize : TransferBuffer_size = 65536%N) by reflexivity.
  destruct k as [|k]; [apply Nat.le_0_l|].
  assert (Hq : (N.of_nat k <= n / TransferBuffer_size)%N).
  { apply N.div_le_lower_bound; lia. }
  set (q := (n / TransferBuffer_size)%N) in *. lia.
Qed.

Lemma writes_for_covers (n : N) (len : nat) :
  writes_for n <= len -> (n <= TransferBuffer_size * N.of_nat len)%N.
Proof.
  unfold writes_for. intros Hlen.
  assert (Hsize : TransferBuffer_size = 65536%N) by reflexivity.
  assert (Hn : (n < TransferBuffer_size * N.succ (n / TransferBuffer_size))%N)
    by (apply N.mul_succ_div_gt; lia).
  set (q := (n / TransferBuffer_size)%N) in *.
  rewrite Hsize in *. lia.
Qed.

Lemma SendStreamedBody_roomy_rest (w : World) :
  forallb roomy (stream_replies (kernel w)) = true ->
  writes_for (size (response_buf_ (client w)))
  <= length (stream_replies (kernel w)) ->
  exists w' k,
    SendStreamedBody w = Ok (MX_OK, w')
    /\ k <= writes_for (size (response_buf_ (client w)))
    /\ stream_replies (kernel w') = skipn k (stream_replies (kernel w))
    /\ stream_received (kernel w')
       = stream_received (kernel w) ++ known (response_buf_ (client w))
    /\ response_buf_ (client w') = []
    /\ loader_ w' = loader_ w.
Proof.
  intros Hroom Hlen. unfold SendStreamedBody.
  destruct (response_buf_ (client w)) as [|c buf] eqn:Hbuf.
  - exists w, 0. cbn [known map skipn]. rewrite app_nil_r, Hbuf.
    repeat split; auto. lia.
  - set (stream := c :: buf) in *.
    replace (0 <? size stream)%N with true by reflexivity.
    assert (H1 : (0 < size stream)%N) by reflexivity.
    assert (H2 : length stream = N.to_nat (size stream - 0))
      by (unfold size; lia).
    assert (H3 : (size stream - 0
                  <= TransferBuffer_size
                     * N.of_nat (length (stream_replies (kernel w))))%N)
      by (rewrite N.sub_0_r; apply writes_for_covers; exact Hlen).
    destruct (stream_body_loop_roomy_rest (stream_replies (kernel w))
                (size stream) 0%N stream (stream_received (kernel w))
                Hroom H1 H2 H3) as [k [Hk Hrest]].
    rewrite Hrest. cbn [bind]. eexists. exists k.
    split; [reflexivity|]. split.
    + apply writes_for_enough. rewrite N.sub_0_r in Hk. exact Hk.
    + repeat split; reflexivity.
Qed.

(** X9. A streamed body that arrives in any number of reads until a read
    fails, with the end of file or with any other error, the body stream
    taking every write: the stream receives exactly the bytes read, in
    order, nothing else; at the failed read the producer end is released,
    nothing is left in flight, and the loader is not called, whatever the
    error. *)
Theorem streamed_body_delivered (chunks : list bytes) (err : error_code) :
  is_error err = true ->
  forall w : World,
    pending w = Some K_OnStreamBody ->
    response_buf_ (client w) = [] ->
    forallb roomy (stream_replies (kernel w)) = true ->
    writes_for_all chunks <= length (stream_replies (kernel w)) ->
    exists w',
      run w (body_reads chunks err) = Ok w'
      /\ stream_received (kernel w')
         = stream_received (kernel w) ++ known (concat chunks)
      /\ response_body_stream_ (client w') = false
      /\ pending w' = None
      /\ loader_ w' = loader_ w.
Proof.
  intros Herr.
  induction chunks as [|c chunks IH]; intros w Hp Hbuf Hroom Hlen.
  - cbn [body_reads map app run]. unfold step. rewrite Hp.
    unfold OnStreamBody. rewrite Herr.
    cbn [negb bind]. eexists. split; [reflexivity|].
    cbn [concat known map]. rewrite app_nil_r. repeat split; reflexivity.
  - cbn [writes_for_all fold_right] in Hlen. fold (writes_for_all chunks) in Hlen.
    cbn [body_reads map app run]. fold (body_reads chunks err).
    unfold step at 1. rewrite Hp. unfold OnStreamBody.
    cbn [is_error negb].
    assert (Hgave : response_buf_ (client (socket_gave c w)) = c).
    { cbn [socket_gave client set_client response_buf_ set_response_buf_].
      now rewrite Hbuf. }
    destruct (SendStreamedBody_roomy_rest (socket_gave c w))
      as [w1 [k [Hsend [Hk [Hreplies [Hreceived [Hbuf1 Hloader]]]]]]].
    { exact Hroom. }
    { rewrite Hgave. cbn [socket_gave kernel set_client]. lia. }
    rewrite Hsend. cbn [bind fst snd].
    replace (MX_OK =? MX_OK)%Z with true by reflexivity. cbv iota.
    rewrite Hgave in *.
    destruct (IH (set_pending (Some K_OnStreamBody) w1))
      as [w' [Hrun [Hreceived' [Hstream [Hp' Hloader']]]]].
    + reflexivity.
    + exact Hbuf1.
    + cbn [kernel set_pending]. rewrite Hreplies.
      apply forallb_skipn. exact Hroom.
    + cbn [kernel set_pending]. rewrite Hreplies, length_skipn.
      cbn [socket_gave kernel set_client]. lia.
    + exists w'. split; [exact Hrun|].
      cbn [kernel set_pending loader_] in Hreceived', Hloader'.
      rewrite Hreceived', Hreceived. cbn [concat].
      rewrite known_app, <- app_assoc. repeat split; auto.
      rewrite Hloader', Hloader. reflexivity.
Qed.

Lemma streamed_body_delivered_witness :
  exists w',
    run (sample_streaming []
           [write_ok 65536; write_ok 65536; write_ok 65536])
      (body_reads [str "hel"; []; str "lo"] ec_eof) = Ok w'
    /\ stream_received (kernel w') = known (str "hello")
    /\ response_body_stream_ (client w') = false
    /\ pending w' = None
    /\ loader_ w' = loader_ (sample_streaming []
                               [write_ok 65536; write_ok 65536; write_ok 65536]).
Proof.
  apply (streamed_body_delivered [str "hel"; []; str "lo"] ec_eof eq_refl
           (sample_streaming []
              [write_ok 65536; write_ok 65536; write_ok 65536])).
  - reflexivity.
  - reflexivity.
  - reflexivity.
  - vm_compute. lia.
Defined.

(** X10. When the body stream refuses the first write of what a read
    brought (the write fails, with the peer closed or otherwise, or it has
    no room and the wait for room fails), the delivery stops silently: the
    stream receives nothing more, the producer end is released, nothing is
    left in flight and the loader is not called, with no [SendError]. *)
Theorem stream_refusal_stops_silently (w : World) (data : bytes)
  (r : sys_reply) (rest : list sys_reply) :
  pending w = Some K_OnStreamBody ->
  is_nil (response_buf_ (client w) ++ data) = false ->
  stream_replies (kernel w) = r :: rest ->
  refuses r = true ->
  exists w',
    step w (ReadDone ec_success data) = Ok w'
    /\ stream_received (kernel w') = stream_received (kernel w)
    /\ response_body_stream_ (client w') = false
    /\ pending w' = None
    /\ loader_ w' = loader_ w.
Proof.
  intros Hp Hdata Hreplies Hrefuses.
  unfold step. rewrite Hp. unfold OnStreamBody. cbn [is_error negb].
  unfold SendStreamedBody.
  cbn [socket_gave client set_client response_buf_ set_response_buf_ kernel].
  destruct (response_buf_ (client w) ++ data) as [|c buf] eqn:Hbuf;
    [discriminate|].
  replace (0 <? size (c :: buf))%N with true by reflexivity.
  rewrite Hreplies. cbn [stream_body_loop stream_read].
  unfold refuses in Hrefuses.
  destruct (reply_status r =? MX_ERR_SHOULD_WAIT)%Z.
  - apply negb_true_iff in Hrefuses. rewrite Hrefuses. cbn [bind fst snd].
    rewrite Hrefuses. eexists. split; [reflexivity|]. repeat split; reflexivity.
  - rewrite Hrefuses. cbn [bind fst snd].
    apply negb_true_iff in Hrefuses. rewrite Hrefuses.
    eexists. split; [reflexivity|]. repeat split; reflexivity.
Qed.

Lemma stream_refusal_stops_silently_witness :
  exists w',
    step (sample_streaming [] [write_error MX_ERR_PEER_CLOSED])
      (ReadDone ec_success (str "hello")) = Ok w'
    /\ stream_received (kernel w') = []
    /\ response_body_stream_ (client w') = false
    /\ pending w' = None
    /\ loader_ w' = loader_ (sample_streaming [] [write_error MX_ERR_PEER_CLOSED]).
Proof.
  apply (stream_refusal_stops_silently
           (sample_streaming [] [write_error MX_ERR_PEER_CLOSED])
           (str "hello") (write_error MX_ERR_PEER_CLOSED) []); reflexivity.
Defined.

(** ** Header fields, both ways *)

Lemma ParseHeaderField_name_value_witness :
  ParseHeaderField
    (str "Location" ++ COLON :: repeat SP 3 ++ str "http://example.com:80/a"
     ++ CR :: str "junk")
  = Ok (str "Location", str "http://example.com:80/a").
Proof.
  apply (ParseHeaderField_name_value (str "Location")
           (str "http://example.com:80/a") (str "junk") 3).
  - vm_compute. intuition discriminate.
  - vm_compute. intuition discriminate.
  - vm_compute. discriminate.
Defined.

Lemma take_while_holds (p : ascii -> bool) (s : bytes) :
  forallb p (take_while p s) = true.
Proof.
  induction s as [|c s IH]; [reflexivity|]. simpl.
  destruct (p c) eqn:Hc; [|reflexivity]. simpl. now rewrite Hc.
Qed.

Lemma take_skip_while (p : ascii -> bool) (s : bytes) :
  take_while p s ++ skip_while p s = s.
Proof.
  induction s as [|c s IH]; [reflexivity|]. simpl.
  destruct (p c); [|reflexivity]. simpl. now rewrite IH.
Qed.

Lemma skip_while_stops (p : ascii -> bool) (s : bytes) :
  starts_with p (skip_while p s) = false.
Proof.
  induction s as [|c s IH]; [reflexivity|]. simpl.
  destruct (p c) eqn:Hc; [exact IH|]. simpl. exact Hc.
Qed.

Lemma take_while_spaces (s : bytes) :
  take_while (fun c => Ascii.eqb c SP) s
  = repeat SP (length (take_while (fun c => Ascii.eqb c SP) s)).
Proof.
  induction s as [|c s IH]; [reflexivity|]. simpl.
  destruct (Ascii.eqb_spec c SP) as [->|]; [|reflexivity].
  simpl. now rewrite <- IH.
Qed.

(** X12. Whenever [ParseHeaderField] yields a name and a value, the line is
    the name, a colon, some spaces, the value and a rest that is empty or
    begins with a carriage return; the name holds no colon, the value no
    carriage return, and the value does not begin with a space. *)
Theorem ParseHeaderField_result (header name value : bytes) :
  ParseHeaderField header = Ok (name, value) ->
  ~ In COLON name
  /\ ~ In CR value
  /\ hd_error value <> Some SP
  /\ exists spaces rest,
       header = name ++ COLON :: repeat SP spaces ++ value ++ rest
       /\ (rest = [] \/ hd_error rest = Some CR).
Proof.
  intros Hparse.
  destruct (has_colon header) eqn:Hcolon;
    [|rewrite (ParseHeaderField_no_colon _ Hcolon) in Hparse; discriminate].
  rewrite (ParseHeaderField_colon _ Hcolon) in Hparse.
  injection Hparse as <- <-. unfold field_name, field_value.
  set (not_colon := fun c => negb (Ascii.eqb COLON c)).
  set (is_space := fun c => Ascii.eqb c SP).
  set (not_CR := fun c => negb (Ascii.eqb c CR)).
  set (t := tl (skip_while not_colon header)).
  set (u := skip_while is_space t).
  assert (Hhead : skip_while not_colon header = COLON :: t).
  { subst t. pose proof (skip_while_stops not_colon header) as Hstop.
    pose proof (take_skip_while not_colon header) as Hsplit.
    destruct (skip_while not_colon header) as [|c rest] eqn:Hskip.
    - exfalso. rewrite app_nil_r in Hsplit.
      unfold has_colon in Hcolon. apply existsb_exists in Hcolon as [c [Hin Hc]].
      pose proof (take_while_holds not_colon header) as Hall.
      rewrite Hsplit in Hall. rewrite forallb_forall in Hall.
      specialize (Hall c Hin). unfold not_colon in Hall. rewrite Hc in Hall.
      discriminate.
    - simpl in Hstop. unfold not_colon in Hstop.
      apply negb_false_iff, Ascii.eqb_eq in Hstop. subst c. reflexivity. }
  split; [|split; [|split]].
  - intros Hin. pose proof (take_while_holds not_colon header) as Hall.
    rewrite forallb_forall in Hall. specialize (Hall COLON Hin).
    unfold not_colon in Hall. rewrite Ascii.eqb_refl in Hall. discriminate.
  - intros Hin. pose proof (take_while_holds not_CR u) as Hall.
    rewrite forallb_forall in Hall. specialize (Hall CR Hin).
    unfold not_CR in Hall. rewrite Ascii.eqb_refl in Hall. discriminate.
  - pose proof (skip_while_stops is_space t) as Hstop. fold u in Hstop.
    destruct u as [|c u']; [simpl; discriminate|]. simpl in Hstop.
    cbn [take_while]. destruct (not_CR c); cbn [hd_error]; [|discriminate].
    intros H. injection H as ->. unfold is_space in Hstop.
    rewrite Ascii.eqb_refl in Hstop. discriminate.
  - exists (length (take_while is_space t)), (skip_while not_CR u). split.
    + rewrite <- (take_skip_while not_colon header) at 1. rewrite Hhead.
      do 2 f_equal. unfold is_space. rewrite <- take_while_spaces.
      fold is_space. rewrite (take_skip_while not_CR u).
      subst u. symmetry. apply take_skip_while.
    + pose proof (skip_while_stops not_CR u) as Hstop.
      destruct (skip_while not_CR u) as [|c rest]; [left; reflexivity|].
      right. simpl in Hstop. unfold not_CR in Hstop.
      apply negb_false_iff, Ascii.eqb_eq in Hstop. now subst c.
Qed.

Lemma ParseHeaderField_result_witness :
  ~ In COLON (str "Host")
  /\ ~ In CR (str "a:b c")
  /\ hd_error (str "a:b c") <> Some SP
  /\ exists spaces rest,
       str "Host:  a:b c" ++ [CR]
       = str "Host" ++ COLON :: repeat SP spaces ++ str "a:b c" ++ rest
       /\ (rest = [] \/ hd_error rest = Some CR).
Proof.
  apply (ParseHeaderField_result (str "Host:  a:b c" ++ [CR]) (str "Host")
           (str "a:b c")).
  reflexivity.
Defined.

(** ** The body of a request *)

Lemma read_elements_app (ok rs : list UploadElementReader) (stream : bytes) :
  readers_succeed ok = true ->
  read_elements (ok ++ rs) stream
  = read_elements rs (stream ++ concat (map read_data ok)).
Proof.
  revert stream; induction ok as [|r ok IH]; intros stream H.
  - simpl. now rewrite app_nil_r.
  - cbn [readers_succeed forallb] in H. apply andb_true_iff in H as [Hr Hok].
    cbn [app read_elements map concat]. rewrite Hr, IH by exact Hok.
    now rewrite <- app_assoc.
Qed.

Lemma read_elements_all (rs : list UploadElementReader) (stream : bytes) :
  readers_succeed rs = true ->
  read_elements rs stream = (stream ++ concat (map read_data rs), MX_OK).
Proof.
  intros Hok. rewrite <- (app_nil_r rs) at 1.
  rewrite (read_elements_app rs [] stream Hok). reflexivity.
Qed.

(** X13. When an upload reader fails, [CreateRequest] returns the status of
    the first reader that fails and offers nothing to the socket: the
    buffers to write stay as they were.  The readers before it and the
    failing one have put their bytes in the body buffer, in order; those
    after it are not run. *)
Theorem CreateRequest_reader_failure (c : HTTPClient)
  (server path method : bytes) (extra_headers : list (bytes * bytes))
  (ok : list UploadElementReader) (r : UploadElementReader)
  (rest : list UploadElementReader) :
  IsMethodAllowed method = true ->
  readers_succeed ok = true ->
  (read_status r =? MX_OK)%Z = false ->
  let out := CreateRequest c server path method extra_headers
               (ok ++ r :: rest) in
  fst out = read_status r
  /\ request_bufs_ (snd out) = request_bufs_ c
  /\ request_body_buf_ (snd out)
     = request_body_buf_ c ++ concat (map read_data ok) ++ read_data r.
Proof.
  intros Hm Hok Hr out. subst out. unfold CreateRequest.
  rewrite Hm. cbn [negb].
  destruct (write_extra_headers _ _ _) as [h has_accept].
  rewrite (read_elements_app ok (r :: rest) _ Hok).
  cbn [read_elements]. rewrite Hr. cbv beta iota zeta. rewrite Hr.
  cbn [negb fst snd set_request request_bufs_ request_body_buf_].
  rewrite <- app_assoc. repeat split; reflexivity.
Qed.

Lemma CreateRequest_reader_failure_witness :
  let out := CreateRequest (HTTPClient_new 0) (str "example.com")
               (str "/upload") (str "PUT") []
               ([sample_reader] ++ failing_reader :: [sample_reader]) in
  fst out = MX_ERR_NO_MEMORY
  /\ request_bufs_ (snd out) = []
  /\ request_body_buf_ (snd out) = str "hellopar".
Proof.
  apply (CreateRequest_reader_failure (HTTPClient_new 0) (str "example.com")
           (str "/upload") (str "PUT") [] [sample_reader] failing_reader
           [sample_reader]); reflexivity.
Defined.

(** X14. When the method is allowed and every upload reader succeeds,
    [CreateRequest] returns [MX_OK]; the body buffer has gained the bytes
    of the readers, each in full and in order, and the header buffer and
    then the body buffer are offered to the socket, after what was offered
    before. *)
Theorem CreateRequest_body (c : HTTPClient) (server path method : bytes)
  (extra_headers : list (bytes * bytes))
  (element_readers : list UploadElementReader) :
  IsMethodAllowed method = true ->
  readers_succeed element_readers = true ->
  let out := CreateRequest c server path method extra_headers
               element_readers in
  fst out = MX_OK
  /\ request_body_buf_ (snd out)
     = request_body_buf_ c ++ concat (map read_data element_readers)
  /\ request_bufs_ (snd out)
     = request_bufs_ c
       ++ [request_header_buf_ (snd out); request_body_buf_ (snd out)].
Proof.
  intros Hm Hok out. subst out. unfold CreateRequest.
  rewrite Hm. cbn [negb].
  destruct (write_extra_headers _ _ _) as [h has_accept].
  rewrite (read_elements_all element_readers _ Hok).
  replace (negb (MX_OK =? MX_OK)%Z) with false by reflexivity.
  repeat split; reflexivity.
Qed.

Lemma CreateRequest_body_witness :
  let out := CreateRequest (HTTPClient_new 0) (str "example.com")
               (str "/upload") (str "PUT") [] [sample_reader; sample_reader] in
  fst out = MX_OK
  /\ request_body_buf_ (snd out) = str "hellohello"
  /\ request_bufs_ (snd out)
     = [request_header_buf_ (snd out); request_body_buf_ (snd out)].
Proof.
  apply (CreateRequest_body (HTTPClient_new 0) (str "example.com")
           (str "/upload") (str "PUT") [] [sample_reader; sample_reader]);
    reflexivity.
Defined.

(** ** A write taken in part *)



(** ** A buffered response from its headers to its delivery *)

Lemma OnReadHeaders_buffered (w : World) :
  is_redirect (status_code_ (client w)) = false ->
  well_formed_block (header_block (response_buf_ (client w))) = true ->
  buffer_response_ (loader_ w) = true ->
  OnReadHeaders w ec_success
  = Ok (set_pending (Some K_OnBufferBody)
          (set_client
             (set_response_
                (Some (envelope w (header_block (response_buf_ (client w)))
                         body_unset))
                (set_response_buf_
                   (after_header_block (response_buf_ (client w)))
                   (client w))) w)).
Proof.
  intros Hcode Hwf Hbuffered. unfold OnReadHeaders. cbn [is_error negb].
  rewrite Hcode.
  assert (Hloop := headers_loop_rest response_body
                     (S (length (response_buf_ (client w))))
                     (istream_on (response_buf_ (client w))) [] eq_refl
                     (fun H => False_ind _ (Bool.diff_false_true H))
                     (Nat.lt_succ_diag_r _) Hwf).
  destruct Hloop as [s' [Hs' Hdata]]. cbn [is_data istream_on] in Hs', Hdata.
  rewrite Hs'. cbn [bind fst snd]. rewrite Hbuffered.
  rewrite fold_response_body, Hdata. reflexivity.
Qed.

(** X16. A buffered response, from the read of its headers to the end of
    its body: when the headers read completes and the body read then ends
    without error or with a stream truncation, the kernel creating the VMO
    and taking every write, the loader is called once, with
    [SendResponse]; the response carries the headers of the block and a
    VMO whose size and contents are exactly the bytes received after the
    blank line, those that came with the headers followed by those of the
    body read. *)
Theorem buffered_exchange_complete (w : World) (hdata data : bytes)
  (err : error_code) :
  pending w = Some K_OnReadHeaders ->
  is_redirect (status_code_ (client w)) = false ->
  buffer_response_ (loader_ w) = true ->
  err = ec_success \/ err = ec_stream_truncated ->
  let buf := response_buf_ (client w) ++ hdata in
  let received := after_header_block buf ++ data in
  well_formed_block (header_block buf) = true ->
  vmo_ready (kernel w) (size received) = true ->
  exists w',
    run w [ReadDone ec_success hdata; ReadDone err data] = Ok w'
    /\ loader_calls (loader_ w')
       = loader_calls (loader_ w)
         ++ [SendResponse
               (Some (buffered_response
                        (envelope w (header_block buf) body_unset) received))]
    /\ pending w' = None.
Proof.
  intros Hp Hcode Hbuffered Herr buf received Hwf Hready.
  cbn [run]. unfold step at 1. rewrite Hp.
  set (w0 := socket_gave hdata w).
  rewrite (OnReadHeaders_buffered w0) by assumption.
  cbn [bind]. unfold step. cbn [pending set_pending].
  match goal with
  | |- context [OnBufferBody ?x err] => set (w1 := x)
  end.
  assert (Hresp : response_ (client w1)
                  = Some (envelope w (header_block buf) body_unset))
    by reflexivity.
  assert (Hbuf1 : response_buf_ (client w1) = received) by reflexivity.
  assert (Hready1 : vmo_ready (kernel w1) (size (response_buf_ (client w1)))
                    = true) by (rewrite Hbuf1; exact Hready).
  destruct (SendBufferedBody_ready w1 _ Hresp Hready1)
    as [w2 [Hsend [Hresp2 [_ Hloader]]]].
  unfold OnBufferBody.
  replace (is_error err && negb (is_stream_truncated err)) with false
    by (destruct Herr as [-> | ->]; reflexivity).
  rewrite Hsend. cbn [bind snd]. eexists. split; [reflexivity|].
  cbn [pending set_pending loader_ call_loader loader_calls set_client].
  rewrite Hresp2, Hloader, Hbuf1. split; reflexivity.
Qed.

Lemma buffered_exchange_complete_witness :
  exists w',
    run (set_kernel (sample_kernel MX_OK [] [write_ok 65536])
           (world_reading_headers true))
      [ReadDone ec_success []; ReadDone ec_stream_truncated (str "lo")]
    = Ok w'
    /\ loader_calls (loader_ w')
       = [SendResponse
            (Some {| status_code := 200;
                     status_line := str "HTTP/1.1 200 OK" ++ [CR];
                     url := str "http://example.com/index.html";
                     headers := [(str "Content-Length", str "5");
                                 (str "Set-Cookie", str "a=1");
                                 (str "Set-Cookie", str "b=2")];
                     body := body_buffer
                               {| vmo_size := 5;
                                  vmo_contents := known (str "hello") |} |})]
    /\ pending w' = None.
Proof.
  apply (buffered_exchange_complete
           (set_kernel (sample_kernel MX_OK [] [write_ok 65536])
              (world_reading_headers true))
           [] (str "lo") ec_stream_truncated).
  - reflexivity.
  - reflexivity.
  - reflexivity.
  - right. reflexivity.
  - reflexivity.
  - reflexivity.
Defined.
